(** * stripe-go: the card and bitcoinreceiver clients

    A shallow embedding of [card/client.go] and [bitcoinreceiver/client.go].
    Both packages build a URL path and hand one request to the shared
    [stripe.Backend]; the card client first picks the owner of the card
    (account, customer or recipient) from the parameter object.

    The backend is a network service: operations run in a monad that threads
    the backend's state and records every request handed to it, so that
    "the backend is not invoked" is the statement that this record is empty. *)

From Stdlib Require Import String Ascii List Bool Arith Lia.
Import ListNotations.
Local Open Scope string_scope.

(** ** Package form *)

Module form.

(** Modelled from the spec: [form.Values] is declared outside the two client
    files; the spec calls it "pre-encoded form values".  It is taken as the
    ordered list of encoded key/value pairs. *)
Definition Values : Type := list (string * string).

(** [&form.Values{}] *)
Definition empty : Values := [].

End form.

(** ** Package stripe: what the clients use of the shared library *)

Module stripe.

(** Records and types the clients pass through without looking inside
    ("opaque, externally-defined record" in the data model), with the zero
    value the clients allocate ([&stripe.Card{}]) where they do. *)
Class Schema : Type := {
  (** Go's [error] values and [errors.New]. *)
  error : Type;
  errors_New : string -> error;
  (** [stripe.Params], embedded in every parameter object. *)
  Params : Type;
  (** [stripe.ListParams], embedded in every list parameter object. *)
  ListParams : Type;
  (** [stripe.ListMeta]: pagination metadata of a page. *)
  ListMeta : Type;
  ListMeta_zero : ListMeta;
  HasMore : ListMeta -> bool;
  (** The fields of [stripe.CardParams] other than the routing ones. *)
  CardDetails : Type;
  Card : Type;
  Card_zero : Card;
  Card_ID : Card -> string;
  BitcoinReceiverParams : Type;
  BitcoinReceiverUpdateParams : Type;
  BitcoinReceiverListParams : Type;
  BitcoinReceiver : Type;
  BitcoinReceiver_zero : BitcoinReceiver;
  (** What the service behind the backend remembers between requests. *)
  BackendState : Type
}.

(** [stripe.CardParams]: the fields [card/client.go] reads. *)
Module CardParams.
Record t `{Schema} : Type := mk {
  Params : stripe.Params;
  Account : option string;
  Customer : option string;
  Recipient : option string;
  Details : CardDetails
}.
End CardParams.

(** [stripe.CardListParams]. *)
Module CardListParams.
Record t `{Schema} : Type := mk {
  ListParams : stripe.ListParams;
  Account : option string;
  Customer : option string;
  Recipient : option string
}.
End CardListParams.

(** [stripe.CardList] and [stripe.BitcoinReceiverList]: a page. *)
Module CardList.
Record t `{Schema} : Type := mk {
  ListMeta : stripe.ListMeta;
  Data : list Card
}.
End CardList.

Module BitcoinReceiverList.
Record t `{Schema} : Type := mk {
  ListMeta : stripe.ListMeta;
  Data : list BitcoinReceiver
}.
End BitcoinReceiverList.

(** The [ParamsContainer] interface: a pointer (possibly nil) to one of the
    parameter objects the clients pass to [Backend.Call]. *)
Inductive ParamsContainer `{Schema} : Type :=
| CardParamsPtr (p : option CardParams.t)
| BitcoinReceiverParamsPtr (p : option BitcoinReceiverParams)
| BitcoinReceiverUpdateParamsPtr (p : option BitcoinReceiverUpdateParams).

(** The [ListParamsContainer] interface, as passed to [GetIter]. *)
Inductive ListParamsContainer `{Schema} : Type :=
| CardListParamsPtr (p : option CardListParams.t)
| BitcoinReceiverListParamsPtr (p : option BitcoinReceiverListParams).

(** The [v interface{}] out-parameter of the backend: the clients pass a
    pointer to a fresh record of one of four types, which the backend
    decodes the response into. *)
Inductive kind : Type := KCard | KBitcoinReceiver | KCardList | KBitcoinReceiverList.

Definition rec `{Schema} (k : kind) : Type :=
  match k with
  | KCard => Card
  | KBitcoinReceiver => BitcoinReceiver
  | KCardList => CardList.t
  | KBitcoinReceiverList => BitcoinReceiverList.t
  end.

(** The [[]interface{}] elements a page fetch returns. *)
Inductive Item `{Schema} : Type :=
| ItemCard (c : Card)
| ItemBitcoinReceiver (r : BitcoinReceiver).

(** One request handed to the backend. *)
Inductive Request `{Schema} : Type :=
| ReqCall (k : kind) (method path key : string) (params : ParamsContainer)
| ReqCallRaw (k : kind) (method path key : string) (body : form.Values)
    (params : option Params).

(** The [stripe.Backend] interface: [Call] and [CallRaw] take the record [v]
    to decode into and return its new content with the error.  *)
Record Backend `{Schema} : Type := {
  Call : forall k : kind, string -> string -> string -> ParamsContainer ->
         rec k -> BackendState -> rec k * option error * BackendState;
  CallRaw : forall k : kind, string -> string -> string -> form.Values ->
         option Params -> rec k -> BackendState ->
         rec k * option error * BackendState
}.

Section Monad.
Context `{Schema}.

(** Client code: a function of the backend's state giving a value, the new
    state and the requests handed to the backend, oldest first. *)
Definition M (A : Type) : Type := BackendState -> A * BackendState * list Request.

Definition ret {A : Type} (a : A) : M A := fun s => (a, s, []).

Definition bind {A B : Type} (m : M A) (f : A -> M B) : M B :=
  fun s =>
    let '(a, s1, t1) := m s in
    let '(b, s2, t2) := f a s1 in
    (b, s2, (t1 ++ t2)%list).

Definition result {A : Type} (m : M A) (s : BackendState) : A := fst (fst (m s)).
Definition final {A : Type} (m : M A) (s : BackendState) : BackendState := snd (fst (m s)).
Definition requests {A : Type} (m : M A) (s : BackendState) : list Request := snd (m s).

(** [b.Call(method, path, key, params, v)] *)
Definition call (b : Backend) (k : kind) (method path key : string)
    (params : ParamsContainer) (v : rec k) : M (rec k * option error) :=
  fun s =>
    let '(v', err, s') := Call b k method path key params v s in
    ((v', err), s', [ReqCall k method path key params]).

(** [b.CallRaw(method, path, key, body, params, v)] *)
Definition callRaw (b : Backend) (k : kind) (method path key : string)
    (body : form.Values) (params : option Params) (v : rec k)
    : M (rec k * option error) :=
  fun s =>
    let '(v', err, s') := CallRaw b k method path key body params v s in
    ((v', err), s', [ReqCallRaw k method path key body params]).

End Monad.

Declare Scope client_scope.
Delimit Scope client_scope with client.
Notation "x <- m ;; k" := (bind m (fun x => k))
  (at level 61, m at next level, right associativity) : client_scope.
Notation "' pat <- m ;; k" := (bind m (fun x => match x with pat => k end))
  (at level 61, pat pattern, m at next level, right associativity) : client_scope.

(** Functions of the shared library that the clients call and that are not
    in the two client files. *)
Class Library `{Schema} : Type := {
  (** The escaping [FormatURLPath] applies to every path parameter. *)
  escape : string -> string;
  (** [params.AppendToAsCardSourceOrExternalAccount(body, keyParts)]:
      the body after the method has appended to it. *)
  AppendToAsCardSourceOrExternalAccount :
    CardParams.t -> form.Values -> list string -> form.Values;
  (** The parameters and form values the iterator hands to its query for the
      page after the item [cur] (the first page when there is none). *)
  pageRequest : ListParamsContainer -> option Item -> option Params * form.Values
}.

(** [stripe.StringValue]: the string a pointer points to, empty for nil. *)
Definition StringValue (v : option string) : string :=
  match v with
  | Some s => s
  | None => ""
  end.

(** [p != nil] *)
Definition notNil {A : Type} (p : option A) : bool :=
  match p with
  | Some _ => true
  | None => false
  end.

(** The arguments left over when the format is exhausted, as [fmt] lists
    them. *)
Fixpoint extraArgs (args : list string) : string :=
  match args with
  | [] => ""
  | [a] => "string=" ++ a
  | a :: rest => "string=" ++ a ++ ", " ++ extraArgs rest
  end.

(** [fmt.Sprintf] on the formats of the client files: their only verb is
    [%s], and every argument is a string.  A verb without an argument and
    arguments without a verb print as Go prints them; the client files have
    as many arguments as verbs. *)
Fixpoint Sprintf (format : string) (args : list string) : string :=
  match format with
  | EmptyString =>
      match args with
      | [] => ""
      | _ :: _ => "%!(EXTRA " ++ extraArgs args ++ ")"
      end
  | String "%" (String "s" rest) =>
      match args with
      | a :: args' => a ++ Sprintf rest args'
      | [] => "%!s(MISSING)" ++ Sprintf rest []
      end
  | String c rest => String c (Sprintf rest args)
  end.

(** Modelled from the spec: [stripe.FormatURLPath] is not in the client
    files.  The spec: the path is "templated with percent-safe identifier
    substitution", each parameter escaped and put in the place of its
    [%s]. *)
Definition FormatURLPath `{Library} (format : string) (params : list string) : string :=
  Sprintf format (map escape params).

Section Iter.
Context `{Library}.

(** The page fetch a client gives to [GetIter]. *)
Definition Query : Type :=
  option Params -> form.Values -> M (list Item * ListMeta * option error).

(** Modelled from the spec: [stripe.Iter], [stripe.GetIter] and the methods
    of the iterator are not in the client files.  The spec: a "generic
    pagination-fetch primitive (pageParams, fetchPage) -> iterator"; "List
    iteration is lazy and pull-based"; the iterator "is still constructed,
    but first advancement surfaces the error".  So the iterator holds the
    container and the query, fetches no page when it is built, and fetches
    one when it is advanced with no item left and either no page fetched yet
    ([meta] is [None]) or more to come. *)
Record Iter : Type := {
  container : ListParamsContainer;
  query : Query;
  cur : option Item;
  values : list Item;
  meta : option ListMeta;
  err : option error
}.

Definition GetIter (container : ListParamsContainer) (query : Query) : Iter :=
  {| container := container; query := query;
     cur := None; values := []; meta := None; err := None |}.

Definition getPage (it : Iter) : M Iter :=
  let '(p, b) := pageRequest (container it) (cur it) in
  (' (vs, m, e) <- query it p b ;;
   ret {| container := container it; query := query it; cur := cur it;
          values := vs; meta := Some m; err := e |})%client.

Definition morePages (it : Iter) : bool :=
  match meta it with
  | None => true
  | Some m => HasMore m
  end.

(** [it.Next()]: the answer and the iterator after the call. *)
Definition Next (it : Iter) : M (bool * Iter) :=
  (it1 <- (match values it with
           | [] => if morePages it then getPage it else ret it
           | _ :: _ => ret it
           end) ;;
   match values it1 with
   | [] => ret (false, it1)
   | v :: vs =>
       ret (true, {| container := container it1; query := query it1;
                     cur := Some v; values := vs;
                     meta := meta it1; err := err it1 |})
   end)%client.

(** [it.Current()] and [it.Err()] *)
Definition Current (it : Iter) : option Item := cur it.
Definition Err (it : Iter) : option error := err it.

End Iter.

(** The package-level settings [getC] reads: the registered API backend
    ([stripe.GetBackend(stripe.APIBackend)]) and [stripe.Key]. *)
Record Globals `{Schema} : Type := {
  APIBackend : Backend;
  Key : string
}.

End stripe.

Import stripe.
Local Open Scope client_scope.

(** ** Package bitcoinreceiver *)

Module bitcoinreceiver.

(** [type Client struct { B stripe.Backend; Key string }] *)
Record Client `{Schema} : Type := {
  B : Backend;
  Key : string
}.

(** [type Iter struct { *stripe.Iter }] *)
Record Iter `{Library} : Type := {
  Iter_ : stripe.Iter
}.

Section Client.
Context `{Library}.

Definition Client_New (c : Client) (params : option BitcoinReceiverParams)
    : M (option BitcoinReceiver * option error) :=
  let receiver := BitcoinReceiver_zero in
  ' (receiver, err) <- call (B c) KBitcoinReceiver "POST" "/bitcoin/receivers" (Key c)
                         (BitcoinReceiverParamsPtr params) receiver ;;
  ret (Some receiver, err).

Definition Client_Get (c : Client) (id : string) (params : option BitcoinReceiverParams)
    : M (option BitcoinReceiver * option error) :=
  let path := FormatURLPath "/bitcoin/receivers/%s" [id] in
  let bitcoinReceiver := BitcoinReceiver_zero in
  ' (bitcoinReceiver, err) <- call (B c) KBitcoinReceiver "GET" path (Key c)
                                (BitcoinReceiverParamsPtr params) bitcoinReceiver ;;
  ret (Some bitcoinReceiver, err).

Definition Client_Update (c : Client) (id : string)
    (params : option BitcoinReceiverUpdateParams)
    : M (option BitcoinReceiver * option error) :=
  let path := FormatURLPath "/bitcoin/receivers/%s" [id] in
  let receiver := BitcoinReceiver_zero in
  ' (receiver, err) <- call (B c) KBitcoinReceiver "POST" path (Key c)
                         (BitcoinReceiverUpdateParamsPtr params) receiver ;;
  ret (Some receiver, err).

Definition Client_List (c : Client) (listParams : option BitcoinReceiverListParams)
    : Iter :=
  {| Iter_ := GetIter (BitcoinReceiverListParamsPtr listParams) (fun p b =>
       let list := {| BitcoinReceiverList.ListMeta := ListMeta_zero;
                      BitcoinReceiverList.Data := [] |} in
       ' (list, err) <- callRaw (B c) KBitcoinReceiverList "GET" "/bitcoin/receivers"
                          (Key c) b p list ;;
       let ret_ := map ItemBitcoinReceiver (BitcoinReceiverList.Data list) in
       ret (ret_, BitcoinReceiverList.ListMeta list, err)) |}.

(** [i.Current()] asserted to be a receiver: the type assertion panics
    ([None]) when the current item is not one. *)
Definition Iter_BitcoinReceiver (i : Iter) : option BitcoinReceiver :=
  match Current (Iter_ i) with
  | Some (ItemBitcoinReceiver r) => Some r
  | _ => None
  end.

Definition getC (g : Globals) : Client :=
  {| B := APIBackend g; Key := stripe.Key g |}.

(** The package-level functions. *)
Definition New (g : Globals) (params : option BitcoinReceiverParams) :=
  Client_New (getC g) params.
Definition Get (g : Globals) (id : string) (params : option BitcoinReceiverParams) :=
  Client_Get (getC g) id params.
Definition Update (g : Globals) (id : string) (params : option BitcoinReceiverUpdateParams) :=
  Client_Update (getC g) id params.
Definition List (g : Globals) (params : option BitcoinReceiverListParams) :=
  Client_List (getC g) params.

End Client.

End bitcoinreceiver.

(** ** Package card *)

Module card.

Record Client `{Schema} : Type := {
  B : Backend;
  Key : string
}.

Record Iter `{Library} : Type := {
  Iter_ : stripe.Iter
}.

Section Client.
Context `{Library}.

Definition Client_New (c : Client) (params : option CardParams.t)
    : M (option Card * option error) :=
  match params with
  | None => ret (None, Some (errors_New "params should not be nil"))
  | Some params =>
      match
        (if notNil (CardParams.Account params) then
           inl (FormatURLPath "/accounts/%s/external_accounts"
                  [StringValue (CardParams.Account params)])
         else if notNil (CardParams.Customer params) then
           inl (FormatURLPath "/customers/%s/sources"
                  [StringValue (CardParams.Customer params)])
         else if notNil (CardParams.Recipient params) then
           inl (FormatURLPath "/recipients/%s/cards"
                  [StringValue (CardParams.Recipient params)])
         else
           inr (errors_New "Invalid card params: either account, customer or recipient need to be set"))
      with
      | inr e => ret (None, Some e)
      | inl path =>
          let body := form.empty in
          let body := AppendToAsCardSourceOrExternalAccount params body [] in
          let card := Card_zero in
          ' (card, err) <- callRaw (B c) KCard "POST" path (Key c) body
                             (Some (CardParams.Params params)) card ;;
          ret (Some card, err)
      end
  end.

Definition Client_Get (c : Client) (id : string) (params : option CardParams.t)
    : M (option Card * option error) :=
  match params with
  | None => ret (None, Some (errors_New "params should not be nil"))
  | Some params =>
      match
        (if notNil (CardParams.Account params) then
           inl (FormatURLPath "/accounts/%s/external_accounts/%s"
                  [StringValue (CardParams.Account params); id])
         else if notNil (CardParams.Customer params) then
           inl (FormatURLPath "/customers/%s/sources/%s"
                  [StringValue (CardParams.Customer params); id])
         else if notNil (CardParams.Recipient params) then
           inl (FormatURLPath "/recipients/%s/cards/%s"
                  [StringValue (CardParams.Recipient params); id])
         else
           inr (errors_New "Invalid card params: either account, customer or recipient need to be set"))
      with
      | inr e => ret (None, Some e)
      | inl path =>
          let card := Card_zero in
          ' (card, err) <- call (B c) KCard "GET" path (Key c)
                             (CardParamsPtr (Some params)) card ;;
          ret (Some card, err)
      end
  end.

Definition Client_Update (c : Client) (id : string) (params : option CardParams.t)
    : M (option Card * option error) :=
  match params with
  | None => ret (None, Some (errors_New "params should not be nil"))
  | Some params =>
      match
        (if notNil (CardParams.Account params) then
           inl (FormatURLPath "/accounts/%s/external_accounts/%s"
                  [StringValue (CardParams.Account params); id])
         else if notNil (CardParams.Customer params) then
           inl (FormatURLPath "/customers/%s/sources/%s"
                  [StringValue (CardParams.Customer params); id])
         else if notNil (CardParams.Recipient params) then
           inl (FormatURLPath "/recipients/%s/cards/%s"
                  [StringValue (CardParams.Recipient params); id])
         else
           inr (errors_New "Invalid card params: either account, customer or recipient need to be set"))
      with
      | inr e => ret (None, Some e)
      | inl path =>
          let card := Card_zero in
          ' (card, err) <- call (B c) KCard "POST" path (Key c)
                             (CardParamsPtr (Some params)) card ;;
          ret (Some card, err)
      end
  end.

Definition Client_Del (c : Client) (id : string) (params : option CardParams.t)
    : M (option Card * option error) :=
  match params with
  | None => ret (None, Some (errors_New "params should not be nil"))
  | Some params =>
      match
        (if notNil (CardParams.Account params) then
           inl (FormatURLPath "/accounts/%s/external_accounts/%s"
                  [StringValue (CardParams.Account params); id])
         else if notNil (CardParams.Customer params) then
           inl (FormatURLPath "/customers/%s/sources/%s"
                  [StringValue (CardParams.Customer params); id])
         else if notNil (CardParams.Recipient params) then
           inl (FormatURLPath "/recipients/%s/cards/%s"
                  [StringValue (CardParams.Recipient params); id])
         else
           inr (errors_New "Invalid card params: either account, customer or recipient need to be set"))
      with
      | inr e => ret (None, Some e)
      | inl path =>
          let card := Card_zero in
          ' (card, err) <- call (B c) KCard "DELETE" path (Key c)
                             (CardParamsPtr (Some params)) card ;;
          ret (Some card, err)
      end
  end.

(** [List] sets [path] or [outerErr] (both start at their zero value) and
    builds the iterator around a closure that reads them. *)
Definition Client_List (c : Client) (listParams : option CardListParams.t) : Iter :=
  let '(path, outerErr) :=
    match listParams with
    | None => ("", Some (errors_New "params should not be nil"))
    | Some lp =>
        if notNil (CardListParams.Account lp) then
          (FormatURLPath "/accounts/%s/external_accounts?object=card"
             [StringValue (CardListParams.Account lp)], None)
        else if notNil (CardListParams.Customer lp) then
          (FormatURLPath "/customers/%s/sources?object=card"
             [StringValue (CardListParams.Customer lp)], None)
        else if notNil (CardListParams.Recipient lp) then
          (FormatURLPath "/recipients/%s/cards"
             [StringValue (CardListParams.Recipient lp)], None)
        else
          ("", Some (errors_New "Invalid card params: either account, customer or recipient need to be set"))
    end in
  {| Iter_ := GetIter (CardListParamsPtr listParams) (fun p b =>
       let list := {| CardList.ListMeta := ListMeta_zero; CardList.Data := [] |} in
       match outerErr with
       | Some e => ret ([], CardList.ListMeta list, Some e)
       | None =>
           ' (list, err) <- callRaw (B c) KCardList "GET" path (Key c) b p list ;;
           let ret_ := map ItemCard (CardList.Data list) in
           ret (ret_, CardList.ListMeta list, err)
       end) |}.

(** [i.Current()] asserted to be a card: the type assertion panics
    ([None]) when the current item is not one. *)
Definition Iter_Card (i : Iter) : option Card :=
  match Current (Iter_ i) with
  | Some (ItemCard c) => Some c
  | _ => None
  end.

Definition getC (g : Globals) : Client :=
  {| B := APIBackend g; Key := stripe.Key g |}.

(** The package-level functions. *)
Definition New (g : Globals) (params : option CardParams.t) :=
  Client_New (getC g) params.
Definition Get (g : Globals) (id : string) (params : option CardParams.t) :=
  Client_Get (getC g) id params.
Definition Update (g : Globals) (id : string) (params : option CardParams.t) :=
  Client_Update (getC g) id params.
Definition Del (g : Globals) (id : string) (params : option CardParams.t) :=
  Client_Del (getC g) id params.
Definition List (g : Globals) (params : option CardListParams.t) :=
  Client_List (getC g) params.

End Client.

End card.

(** ** The routing rule, as the specification words it *)

Module routing.

(** The parent resource a card belongs to. *)
Inductive Owner : Type :=
| OfAccount (account : string)
| OfCustomer (customer : string)
| OfRecipient (recipient : string).

(** The first identifier that is set, in the order account, customer,
    recipient. *)
Definition firstSet (account customer recipient : option string) : option Owner :=
  match account, customer, recipient with
  | Some a, _, _ => Some (OfAccount a)
  | None, Some c, _ => Some (OfCustomer c)
  | None, None, Some r => Some (OfRecipient r)
  | None, None, None => None
  end.

(** How many of the three identifiers are set. *)
Definition countSet (account customer recipient : option string) : nat :=
  (if notNil account then 1 else 0) + (if notNil customer then 1 else 0)
  + (if notNil recipient then 1 else 0).

(** The identifier that is set, when exactly one is. *)
Definition onlySet (account customer recipient : option string) : option Owner :=
  match account, customer, recipient with
  | Some a, None, None => Some (OfAccount a)
  | None, Some c, None => Some (OfCustomer c)
  | None, None, Some r => Some (OfRecipient r)
  | _, _, _ => None
  end.

(** The owner of a card parameter object and of a list parameter object;
    a nil list parameter object has none. *)
Definition ownerOf `{Schema} (p : CardParams.t) : option Owner :=
  firstSet (CardParams.Account p) (CardParams.Customer p) (CardParams.Recipient p).

Definition ownerOfList `{Schema} (lp : option CardListParams.t) : option Owner :=
  match lp with
  | None => None
  | Some lp =>
      firstSet (CardListParams.Account lp) (CardListParams.Customer lp)
        (CardListParams.Recipient lp)
  end.

(** The path and the method of a request. *)
Definition pathOf `{Schema} (r : Request) : string :=
  match r with
  | ReqCall _ _ path _ _ => path
  | ReqCallRaw _ _ path _ _ _ => path
  end.

Definition methodOf `{Schema} (r : Request) : string :=
  match r with
  | ReqCall _ method _ _ _ => method
  | ReqCallRaw _ method _ _ _ _ => method
  end.

(** The API key of a request. *)
Definition keyOf `{Schema} (r : Request) : string :=
  match r with
  | ReqCall _ _ _ key _ => key
  | ReqCallRaw _ _ _ key _ _ => key
  end.

(** Two owners are of the same kind of parent resource. *)
Definition sameKind (o o' : Owner) : bool :=
  match o, o' with
  | OfAccount _, OfAccount _ => true
  | OfCustomer _, OfCustomer _ => true
  | OfRecipient _, OfRecipient _ => true
  | _, _ => false
  end.

Section Templates.
Context `{Library}.

(** The collection of an owner's cards:
    account -> [/accounts/{account}/external_accounts],
    customer -> [/customers/{customer}/sources],
    recipient -> [/recipients/{recipient}/cards]. *)
Definition collection (o : Owner) : string :=
  match o with
  | OfAccount a => "/accounts/" ++ escape a ++ "/external_accounts"
  | OfCustomer c => "/customers/" ++ escape c ++ "/sources"
  | OfRecipient r => "/recipients/" ++ escape r ++ "/cards"
  end.

(** The template with its optional [/{id}]. *)
Definition template (o : Owner) (id : option string) : string :=
  match id with
  | None => collection o
  | Some i => collection o ++ "/" ++ escape i
  end.

(** The paths of the list operation: the account and customer collections
    carry [?object=card], the recipient collection does not. *)
Definition listTemplate (o : Owner) : string :=
  match o with
  | OfAccount a => "/accounts/" ++ escape a ++ "/external_accounts?object=card"
  | OfCustomer c => "/customers/" ++ escape c ++ "/sources?object=card"
  | OfRecipient r => "/recipients/" ++ escape r ++ "/cards"
  end.

(** A stable backend: a card that a POST to a collection has returned
    without error is what a GET of that card under the collection returns
    from then on, whatever the parameters of the GET. *)
Definition stable (b : Backend) : Prop :=
  forall (path key : string) (body : form.Values) (params : option Params)
         (s s' : BackendState) (created : Card),
    CallRaw b KCard "POST" path key body params Card_zero s = (created, None, s') ->
    forall (key' : string) (pc : ParamsContainer),
      fst (Call b KCard "GET" (path ++ "/" ++ escape (Card_ID created)) key' pc
             Card_zero s')
      = (created, None).

End Templates.

End routing.

Import routing.

(** ** A concrete library and two concrete backends, to run the clients on *)

Module demo.

(** Modelled from the spec: the escaping of path parameters is not in the
    client files; the spec calls it "percent-encoding of special
    characters".  Letters, digits and [- . _ ~] stand for themselves, every
    other byte becomes [%XX]. *)
Definition unreserved (c : ascii) : bool :=
  let n := nat_of_ascii c in
  (((48 <=? n) && (n <=? 57)) || ((65 <=? n) && (n <=? 90))
   || ((97 <=? n) && (n <=? 122))
   || (n =? 45) || (n =? 46) || (n =? 95) || (n =? 126))%nat.

Definition hexDigit (n : nat) : ascii :=
  match get n "0123456789ABCDEF" with
  | Some c => c
  | None => "0"%char
  end.

Fixpoint PercentEncode (s : string) : string :=
  match s with
  | EmptyString => ""
  | String c rest =>
      if unreserved c then String c (PercentEncode rest)
      else
        let n := nat_of_ascii c in
        String "%" (String (hexDigit (n / 16)) (String (hexDigit (n mod 16))
          (PercentEncode rest)))
  end.

(** Cards and receivers are their identifier; errors are their message; the
    service remembers the cards it has created, by path. *)
#[export] Instance schema : Schema := {|
  error := string;
  errors_New := fun msg => msg;
  Params := unit;
  ListParams := unit;
  ListMeta := bool;
  ListMeta_zero := false;
  HasMore := fun m => m;
  CardDetails := string;
  Card := string;
  Card_zero := "";
  Card_ID := fun c => c;
  BitcoinReceiverParams := unit;
  BitcoinReceiverUpdateParams := unit;
  BitcoinReceiverListParams := unit;
  BitcoinReceiver := string;
  BitcoinReceiver_zero := "";
  BackendState := list (string * string)
|}.

#[export] Instance library : Library := {|
  escape := PercentEncode;
  AppendToAsCardSourceOrExternalAccount := fun p body keyParts =>
    (body ++ [("source[number]", CardParams.Details p)])%list;
  pageRequest := fun _ _ => (None, form.empty)
|}.

Fixpoint lookup (path : string) (s : list (string * string)) : option string :=
  match s with
  | [] => None
  | (p, c) :: rest => if String.eqb p path then Some c else lookup path rest
  end.

(** A service that creates the card [card_1] on a POST to a card collection
    and serves the cards it has created. *)
Definition store : Backend := {|
  Call := fun k method path _ _ =>
    match k return rec k -> BackendState -> rec k * option error * BackendState with
    | KCard => fun v s =>
        if String.eqb method "GET" then
          match lookup path s with
          | Some c => (c, None, s)
          | None => (v, Some "resource_missing", s)
          end
        else (v, None, s)
    | _ => fun v s => (v, None, s)
    end;
  CallRaw := fun k method path _ _ _ =>
    match k return rec k -> BackendState -> rec k * option error * BackendState with
    | KCard => fun v s =>
        if String.eqb method "POST" then
          ("card_1", None, (path ++ "/card_1", "card_1") :: s)
        else (v, None, s)
    | _ => fun v s => (v, None, s)
    end
|}.

(** A service that answers every request with the same error. *)
Definition down : Backend := {|
  Call := fun k _ _ _ _ v s => (v, Some "api_connection_error", s);
  CallRaw := fun k _ _ _ _ _ v s => (v, Some "api_connection_error", s)
|}.

(** A service that answers every list request with the same page of two
    records, and says there was a rate limit while doing so. *)
Definition catalog : Backend := {|
  Call := fun k _ _ _ _ v s => (v, None, s);
  CallRaw := fun k _ _ _ _ _ =>
    match k return rec k -> BackendState -> rec k * option error * BackendState with
    | KCardList => fun _ s =>
        ({| CardList.ListMeta := true; CardList.Data := ["card_1"; "card_2"] |},
         Some "rate_limit", s)
    | KBitcoinReceiverList => fun _ s =>
        ({| BitcoinReceiverList.ListMeta := true;
            BitcoinReceiverList.Data := ["btcrcv_1"; "btcrcv_2"] |},
         Some "rate_limit", s)
    | _ => fun v s => (v, None, s)
    end
|}.

(** Package-level settings with the store as the API backend. *)
Definition defaults : Globals :=
  {| APIBackend := store; stripe.Key := "sk_live" |}.

Definition cardParams (account customer recipient : option string) : CardParams.t :=
  {| CardParams.Params := tt; CardParams.Account := account;
     CardParams.Customer := customer; CardParams.Recipient := recipient;
     CardParams.Details := "4242424242424242" |}.

Definition cardListParams (account customer recipient : option string)
    : CardListParams.t :=
  {| CardListParams.ListParams := tt; CardListParams.Account := account;
     CardListParams.Customer := customer; CardListParams.Recipient := recipient |}.

Definition cardClient (b : Backend) : card.Client :=
  {| card.B := b; card.Key := "sk_test" |}.

Definition receiverClient (b : Backend) : bitcoinreceiver.Client :=
  {| bitcoinreceiver.B := b; bitcoinreceiver.Key := "sk_test" |}.

End demo.

(** * Properties *)

(** ** Strings and path formatting *)

Lemma append_nil_r (s : string) : s ++ "" = s.
Proof.
  induction s as [| c s IH]; simpl.
  - reflexivity.
  - now rewrite IH.
Qed.

Lemma append_assoc (s t u : string) : (s ++ t) ++ u = s ++ t ++ u.
Proof.
  induction s as [| c s IH]; simpl.
  - reflexivity.
  - now rewrite IH.
Qed.

Lemma onlySet_firstSet (a c r : option string) (o : Owner) :
  onlySet a c r = Some o -> firstSet a c r = Some o.
Proof.
  destruct a, c, r; simpl; intros E; try discriminate E; exact E.
Qed.

Lemma firstSet_None (a c r : option string) :
  firstSet a c r = None <-> countSet a c r = 0.
Proof.
  destruct a, c, r; simpl; split; intros E; try discriminate E; reflexivity.
Qed.

Lemma firstSet_cases (a c r : option string) (o : Owner) :
  firstSet a c r = Some o ->
  (exists x, a = Some x /\ o = OfAccount x)
  \/ (exists x, a = None /\ c = Some x /\ o = OfCustomer x)
  \/ (exists x, a = None /\ c = None /\ r = Some x /\ o = OfRecipient x).
Proof.
  destruct a as [x |]; [| destruct c as [x |]; [| destruct r as [x |]]];
    simpl; intros E; inversion E; subst; eauto 8.
Qed.

Section Paths.
Context `{Library}.

(** What [FormatURLPath] makes of the formats of the card client. *)
Lemma FormatURLPath_collection (a c r : option string) (o : Owner) :
  firstSet a c r = Some o ->
  (if notNil a then FormatURLPath "/accounts/%s/external_accounts" [StringValue a]
   else if notNil c then FormatURLPath "/customers/%s/sources" [StringValue c]
   else FormatURLPath "/recipients/%s/cards" [StringValue r])
  = collection o.
Proof.
  intros E. destruct (firstSet_cases _ _ _ _ E)
    as [(x & -> & ->) | [(x & -> & -> & ->) | (x & -> & -> & -> & ->)]];
    reflexivity.
Qed.

Lemma FormatURLPath_member (a c r : option string) (o : Owner) (id : string) :
  firstSet a c r = Some o ->
  (if notNil a then
     FormatURLPath "/accounts/%s/external_accounts/%s" [StringValue a; id]
   else if notNil c then
     FormatURLPath "/customers/%s/sources/%s" [StringValue c; id]
   else FormatURLPath "/recipients/%s/cards/%s" [StringValue r; id])
  = template o (Some id).
Proof.
  intros E. destruct (firstSet_cases _ _ _ _ E)
    as [(x & -> & ->) | [(x & -> & -> & ->) | (x & -> & -> & -> & ->)]];
    cbn; rewrite append_nil_r, append_assoc; reflexivity.
Qed.

Lemma FormatURLPath_list (a c r : option string) (o : Owner) :
  firstSet a c r = Some o ->
  (if notNil a then
     FormatURLPath "/accounts/%s/external_accounts?object=card" [StringValue a]
   else if notNil c then
     FormatURLPath "/customers/%s/sources?object=card" [StringValue c]
   else FormatURLPath "/recipients/%s/cards" [StringValue r])
  = listTemplate o.
Proof.
  intros E. destruct (firstSet_cases _ _ _ _ E)
    as [(x & -> & ->) | [(x & -> & -> & ->) | (x & -> & -> & -> & ->)]];
    reflexivity.
Qed.

Lemma FormatURLPath_receiver (id : string) :
  FormatURLPath "/bitcoin/receivers/%s" [id] = "/bitcoin/receivers/" ++ escape id.
Proof. cbn. now rewrite append_nil_r. Qed.

End Paths.

(** ** One run of each card operation *)

Section CardRuns.
Context `{Library}.

Ltac by_owner E :=
  unfold ownerOf, ownerOfList in E; simpl in E;
  destruct (firstSet_cases _ _ _ _ E)
    as [(x & Ea & ->) | [(x & Ea & Ec & ->) | (x & Ea & Ec & Er & ->)]].

Ltac one_call :=
  unfold bind, call, callRaw, ret;
  match goal with
  | |- context [Call ?b ?k ?m ?p ?key ?pc ?v ?s] =>
      destruct (Call b k m p key pc v s) as [[? ?] ?]
  | |- context [CallRaw ?b ?k ?m ?p ?key ?body ?pc ?v ?s] =>
      destruct (CallRaw b k m p key body pc v s) as [[? ?] ?]
  end; reflexivity.

(** With an owner, [New] hands the backend one raw POST to the owner's
    collection and returns what the backend decoded together with its
    error. *)
Lemma card_New_run (c : card.Client) (p : CardParams.t) (o : Owner) (s : BackendState) :
  ownerOf p = Some o ->
  card.Client_New c (Some p) s =
  let body := AppendToAsCardSourceOrExternalAccount p form.empty [] in
  let '(v, e, s') := CallRaw (card.B c) KCard "POST" (collection o) (card.Key c) body
                       (Some (CardParams.Params p)) Card_zero s in
  ((Some v, e), s',
   [ReqCallRaw KCard "POST" (collection o) (card.Key c) body (Some (CardParams.Params p))]).
Proof.
  intros E. destruct p as [ps a cu r d].
  assert (P := FormatURLPath_collection a cu r o E).
  by_owner E; simpl in *; subst; simpl in P;
    unfold card.Client_New; simpl; rewrite P; one_call.
Qed.

Lemma card_member_run (method : string) (c : card.Client) (id : string)
    (p : CardParams.t) (o : Owner) (s : BackendState) :
  ownerOf p = Some o ->
  let run :=
    let '(v, e, s') := Call (card.B c) KCard method (template o (Some id)) (card.Key c)
                         (CardParamsPtr (Some p)) Card_zero s in
    ((Some v, e), s',
     [ReqCall KCard method (template o (Some id)) (card.Key c) (CardParamsPtr (Some p))]) in
  (method = "GET" -> card.Client_Get c id (Some p) s = run)
  /\ (method = "POST" -> card.Client_Update c id (Some p) s = run)
  /\ (method = "DELETE" -> card.Client_Del c id (Some p) s = run).
Proof.
  intros E. destruct p as [ps a cu r d].
  assert (P := FormatURLPath_member a cu r o id E).
  by_owner E; simpl in *; subst; simpl in P;
    (repeat split; intros ->;
     unfold card.Client_Get, card.Client_Update, card.Client_Del; simpl;
     rewrite P; one_call).
Qed.

Lemma card_Get_run (c : card.Client) (id : string) (p : CardParams.t) (o : Owner)
    (s : BackendState) :
  ownerOf p = Some o ->
  card.Client_Get c id (Some p) s =
  let '(v, e, s') := Call (card.B c) KCard "GET" (template o (Some id)) (card.Key c)
                       (CardParamsPtr (Some p)) Card_zero s in
  ((Some v, e), s',
   [ReqCall KCard "GET" (template o (Some id)) (card.Key c) (CardParamsPtr (Some p))]).
Proof. intros E. now apply (card_member_run "GET" c id p o s E). Qed.

Lemma card_Update_run (c : card.Client) (id : string) (p : CardParams.t) (o : Owner)
    (s : BackendState) :
  ownerOf p = Some o ->
  card.Client_Update c id (Some p) s =
  let '(v, e, s') := Call (card.B c) KCard "POST" (template o (Some id)) (card.Key c)
                       (CardParamsPtr (Some p)) Card_zero s in
  ((Some v, e), s',
   [ReqCall KCard "POST" (template o (Some id)) (card.Key c) (CardParamsPtr (Some p))]).
Proof. intros E. now apply (card_member_run "POST" c id p o s E). Qed.

Lemma card_Del_run (c : card.Client) (id : string) (p : CardParams.t) (o : Owner)
    (s : BackendState) :
  ownerOf p = Some o ->
  card.Client_Del c id (Some p) s =
  let '(v, e, s') := Call (card.B c) KCard "DELETE" (template o (Some id)) (card.Key c)
                       (CardParamsPtr (Some p)) Card_zero s in
  ((Some v, e), s',
   [ReqCall KCard "DELETE" (template o (Some id)) (card.Key c) (CardParamsPtr (Some p))]).
Proof. intros E. now apply (card_member_run "DELETE" c id p o s E). Qed.

(** With an owner, the page fetch of [List] hands the backend one raw GET to
    the owner's list path, with the parameters and form values the iterator
    gives it. *)
Lemma card_List_query_run (c : card.Client) (lp : CardListParams.t) (o : Owner)
    (pp : option Params) (b : form.Values) (s : BackendState) :
  ownerOfList (Some lp) = Some o ->
  query (card.Iter_ (card.Client_List c (Some lp))) pp b s =
  let '(page, e, s') :=
    CallRaw (card.B c) KCardList "GET" (listTemplate o) (card.Key c) b pp
      {| CardList.ListMeta := ListMeta_zero; CardList.Data := [] |} s in
  ((map ItemCard (CardList.Data page), CardList.ListMeta page, e), s',
   [ReqCallRaw KCardList "GET" (listTemplate o) (card.Key c) b pp]).
Proof.
  intros E. destruct lp as [ps a cu r].
  assert (P := FormatURLPath_list a cu r o E).
  by_owner E; simpl in *; subst; simpl in P;
    unfold card.Client_List; simpl; rewrite P; one_call.
Qed.

(** Without an owner, the four operations stop before the backend. *)
Lemma card_no_owner_run (c : card.Client) (id : string) (p : CardParams.t)
    (s : BackendState) :
  ownerOf p = None ->
  let stop :=
    ((None, Some (errors_New
        "Invalid card params: either account, customer or recipient need to be set")),
     s, @nil Request) in
  card.Client_New c (Some p) s = stop
  /\ card.Client_Get c id (Some p) s = stop
  /\ card.Client_Update c id (Some p) s = stop
  /\ card.Client_Del c id (Some p) s = stop.
Proof.
  destruct p as [ps [a |] [cu |] [r |] d]; unfold ownerOf; simpl; intros E;
    try discriminate E; repeat split; reflexivity.
Qed.

(** Without an owner, the page fetch of [List] returns the error that
    [List] has kept, and stops before the backend. *)
Lemma card_List_query_no_owner (c : card.Client) (lp : option CardListParams.t)
    (pp : option Params) (b : form.Values) (s : BackendState) :
  ownerOfList lp = None ->
  query (card.Iter_ (card.Client_List c lp)) pp b s =
  (([], ListMeta_zero,
    Some (errors_New
      match lp with
      | None => "params should not be nil"
      | Some _ => "Invalid card params: either account, customer or recipient need to be set"
      end)), s, []).
Proof.
  destruct lp as [[ps [a |] [cu |] [r |]] |]; simpl; intros E;
    try discriminate E; reflexivity.
Qed.

(** An iterator that was just built fetches its first page when advanced. *)
Lemma Next_first (container : ListParamsContainer) (q : Query) (s : BackendState) :
  Next (GetIter container q) s =
  let '(p, b) := pageRequest container None in
  let '((vs, m, e), s', t) := q p b s in
  match vs with
  | [] =>
      ((false, {| container := container; query := q; cur := None; values := [];
                  meta := Some m; err := e |}), s', t)
  | v :: vs' =>
      ((true, {| container := container; query := q; cur := Some v; values := vs';
                 meta := Some m; err := e |}), s', t)
  end.
Proof.
  unfold Next, GetIter, getPage, morePages, bind, ret; simpl.
  destruct (pageRequest container None) as [p b].
  destruct (q p b s) as [[[[vs m] e] s'] t]; simpl.
  destruct vs; rewrite !app_nil_r; reflexivity.
Qed.

(** [List] builds its iterator with [GetIter], around its page fetch. *)
Lemma card_List_GetIter (c : card.Client) (lp : option CardListParams.t) :
  card.Iter_ (card.Client_List c lp)
  = GetIter (CardListParamsPtr lp) (query (card.Iter_ (card.Client_List c lp))).
Proof.
  destruct lp as [[ps [a |] [cu |] [r |]] |]; reflexivity.
Qed.

(** Advancing the iterator [List] has built for a parameter object without
    an owner: the error appears, the backend is not reached. *)
Lemma card_List_Next_no_owner (c : card.Client) (lp : option CardListParams.t)
    (s : BackendState) :
  ownerOfList lp = None ->
  exists it' : stripe.Iter,
    Next (card.Iter_ (card.Client_List c lp)) s = ((false, it'), s, [])
    /\ Err it' =
       Some (errors_New
         match lp with
         | None => "params should not be nil"
         | Some _ => "Invalid card params: either account, customer or recipient need to be set"
         end).
Proof.
  intros E. rewrite card_List_GetIter, Next_first.
  destruct (pageRequest (CardListParamsPtr lp) None) as [pp b].
  rewrite (card_List_query_no_owner c lp pp b s E).
  eexists; split; reflexivity.
Qed.

End CardRuns.

(** ** One run of each bitcoin receiver operation *)

Section ReceiverRuns.
Context `{Library}.

Lemma receiver_New_run (c : bitcoinreceiver.Client) (params : option BitcoinReceiverParams)
    (s : BackendState) :
  bitcoinreceiver.Client_New c params s =
  let '(v, e, s') :=
    Call (bitcoinreceiver.B c) KBitcoinReceiver "POST" "/bitcoin/receivers"
      (bitcoinreceiver.Key c) (BitcoinReceiverParamsPtr params) BitcoinReceiver_zero s in
  ((Some v, e), s',
   [ReqCall KBitcoinReceiver "POST" "/bitcoin/receivers" (bitcoinreceiver.Key c)
      (BitcoinReceiverParamsPtr params)]).
Proof.
  unfold bitcoinreceiver.Client_New, bind, call, ret.
  destruct (Call _ _ _ _ _ _ _ _) as [[v e] s']. reflexivity.
Qed.

Lemma receiver_Get_run (c : bitcoinreceiver.Client) (id : string)
    (params : option BitcoinReceiverParams) (s : BackendState) :
  bitcoinreceiver.Client_Get c id params s =
  let path := "/bitcoin/receivers/" ++ escape id in
  let '(v, e, s') :=
    Call (bitcoinreceiver.B c) KBitcoinReceiver "GET" path
      (bitcoinreceiver.Key c) (BitcoinReceiverParamsPtr params) BitcoinReceiver_zero s in
  ((Some v, e), s',
   [ReqCall KBitcoinReceiver "GET" path (bitcoinreceiver.Key c)
      (BitcoinReceiverParamsPtr params)]).
Proof.
  unfold bitcoinreceiver.Client_Get. rewrite FormatURLPath_receiver.
  unfold bind, call, ret. cbv zeta.
  destruct (Call _ _ _ _ _ _ _ _) as [[v e] s']. reflexivity.
Qed.

Lemma receiver_Update_run (c : bitcoinreceiver.Client) (id : string)
    (params : option BitcoinReceiverUpdateParams) (s : BackendState) :
  bitcoinreceiver.Client_Update c id params s =
  let path := "/bitcoin/receivers/" ++ escape id in
  let '(v, e, s') :=
    Call (bitcoinreceiver.B c) KBitcoinReceiver "POST" path
      (bitcoinreceiver.Key c) (BitcoinReceiverUpdateParamsPtr params)
      BitcoinReceiver_zero s in
  ((Some v, e), s',
   [ReqCall KBitcoinReceiver "POST" path (bitcoinreceiver.Key c)
      (BitcoinReceiverUpdateParamsPtr params)]).
Proof.
  unfold bitcoinreceiver.Client_Update. rewrite FormatURLPath_receiver.
  unfold bind, call, ret. cbv zeta.
  destruct (Call _ _ _ _ _ _ _ _) as [[v e] s']. reflexivity.
Qed.

Lemma receiver_List_query_run (c : bitcoinreceiver.Client)
    (lp : option BitcoinReceiverListParams) (pp : option Params) (b : form.Values)
    (s : BackendState) :
  query (bitcoinreceiver.Iter_ (bitcoinreceiver.Client_List c lp)) pp b s =
  let '(page, e, s') :=
    CallRaw (bitcoinreceiver.B c) KBitcoinReceiverList "GET" "/bitcoin/receivers"
      (bitcoinreceiver.Key c) b pp
      {| BitcoinReceiverList.ListMeta := ListMeta_zero;
         BitcoinReceiverList.Data := [] |} s in
  ((map ItemBitcoinReceiver (BitcoinReceiverList.Data page),
    BitcoinReceiverList.ListMeta page, e), s',
   [ReqCallRaw KBitcoinReceiverList "GET" "/bitcoin/receivers"
      (bitcoinreceiver.Key c) b pp]).
Proof.
  unfold bitcoinreceiver.Client_List; simpl. unfold bind, callRaw, ret.
  destruct (CallRaw _ _ _ _ _ _ _ _ _) as [[v e] s']. reflexivity.
Qed.

End ReceiverRuns.

(** ** The card client *)

Section CardProperties.
Context `{Library}.

Ltac run_of L :=
  unfold requests, result, final; erewrite L by eassumption; cbv zeta;
  match goal with
  | |- context [Call ?b ?k ?m ?p ?key ?pc ?v ?s] =>
      destruct (Call b k m p key pc v s) as [[? ?] ?]
  | |- context [CallRaw ?b ?k ?m ?p ?key ?body ?pc ?v ?s] =>
      destruct (CallRaw b k m p key body pc v s) as [[? ?] ?]
  end; reflexivity.

(** C1. When exactly one of account, customer, recipient is set in the
    parameter object, each of New, Get, Update and Del hands the backend one
    request whose path is the template of that owner
    ([/accounts/{account}/external_accounts], [/customers/{customer}/sources],
    [/recipients/{recipient}/cards], followed by [/{id}] for Get, Update and
    Del), with the identifier and the card id put in escaped. *)
Theorem card_path_exactly_one_parent (c : card.Client) (id : string)
    (p : CardParams.t) (o : Owner) (s : BackendState) :
  onlySet (CardParams.Account p) (CardParams.Customer p) (CardParams.Recipient p)
  = Some o ->
  map pathOf (requests (card.Client_New c (Some p)) s) = [template o None]
  /\ map pathOf (requests (card.Client_Get c id (Some p)) s) = [template o (Some id)]
  /\ map pathOf (requests (card.Client_Update c id (Some p)) s) = [template o (Some id)]
  /\ map pathOf (requests (card.Client_Del c id (Some p)) s) = [template o (Some id)].
Proof.
  intros E. apply onlySet_firstSet in E. change (ownerOf p = Some o) in E.
  repeat split.
  - run_of card_New_run.
  - run_of card_Get_run.
  - run_of card_Update_run.
  - run_of card_Del_run.
Qed.

(** C3. Called with a nil parameter object, each of New, Get, Update and Del
    returns no card and the error "params should not be nil", leaves the
    backend as it was and hands it no request. *)
Theorem card_nil_params_rejected (c : card.Client) (id : string) (s : BackendState) :
  let stop := ((None, Some (errors_New "params should not be nil")), s, @nil Request) in
  card.Client_New c None s = stop
  /\ card.Client_Get c id None s = stop
  /\ card.Client_Update c id None s = stop
  /\ card.Client_Del c id None s = stop.
Proof. repeat split. Qed.

(** C5. Owner resolution looks at account, then customer, then recipient:
    for every parameter object, the path each card operation requests is the
    template of the first of the three identifiers that is set (for List,
    the path its page fetch requests). *)
Theorem card_owner_precedence (c : card.Client) (id : string) (p : CardParams.t)
    (lp : CardListParams.t) (o o' : Owner) (pp : option Params) (b : form.Values)
    (s : BackendState) :
  firstSet (CardParams.Account p) (CardParams.Customer p) (CardParams.Recipient p)
  = Some o ->
  firstSet (CardListParams.Account lp) (CardListParams.Customer lp)
    (CardListParams.Recipient lp) = Some o' ->
  map pathOf (requests (card.Client_New c (Some p)) s) = [template o None]
  /\ map pathOf (requests (card.Client_Get c id (Some p)) s) = [template o (Some id)]
  /\ map pathOf (requests (card.Client_Update c id (Some p)) s) = [template o (Some id)]
  /\ map pathOf (requests (card.Client_Del c id (Some p)) s) = [template o (Some id)]
  /\ map pathOf (requests (query (card.Iter_ (card.Client_List c (Some lp))) pp b) s)
     = [listTemplate o'].
Proof.
  intros E E'. change (ownerOf p = Some o) in E.
  change (ownerOfList (Some lp) = Some o') in E'.
  repeat split.
  - run_of card_New_run.
  - run_of card_Get_run.
  - run_of card_Update_run.
  - run_of card_Del_run.
  - run_of card_List_query_run.
Qed.

(** C2, amended. Called with a non-nil parameter object in which none of
    account, customer, recipient is set, each of New, Get, Update and Del
    returns no card and a validation error and hands the backend no request;
    the page fetch of the iterator List returns gives the same error without
    a request, and the first advance of the iterator shows it.  A parameter
    object with two or three of them set is not rejected: the operation
    requests the path of the first one set. *)
Theorem card_no_parent_rejected (c : card.Client) (id : string) :
  (forall (p : CardParams.t) (s : BackendState),
     countSet (CardParams.Account p) (CardParams.Customer p) (CardParams.Recipient p) = 0 ->
     let stop :=
       ((None, Some (errors_New
           "Invalid card params: either account, customer or recipient need to be set")),
        s, @nil Request) in
     card.Client_New c (Some p) s = stop
     /\ card.Client_Get c id (Some p) s = stop
     /\ card.Client_Update c id (Some p) s = stop
     /\ card.Client_Del c id (Some p) s = stop)
  /\ (forall (lp : CardListParams.t) (pp : option Params) (b : form.Values)
             (s : BackendState),
     countSet (CardListParams.Account lp) (CardListParams.Customer lp)
       (CardListParams.Recipient lp) = 0 ->
     let e := errors_New
       "Invalid card params: either account, customer or recipient need to be set" in
     let it := card.Iter_ (card.Client_List c (Some lp)) in
     query it pp b s = (([], ListMeta_zero, Some e), s, [])
     /\ exists it' : stripe.Iter,
          Next it s = ((false, it'), s, []) /\ Err it' = Some e)
  /\ (forall (p : CardParams.t) (s : BackendState),
     2 <= countSet (CardParams.Account p) (CardParams.Customer p)
            (CardParams.Recipient p) ->
     exists o : Owner,
       firstSet (CardParams.Account p) (CardParams.Customer p) (CardParams.Recipient p)
       = Some o
       /\ map pathOf (requests (card.Client_New c (Some p)) s) = [template o None]
       /\ map pathOf (requests (card.Client_Get c id (Some p)) s) = [template o (Some id)]
       /\ map pathOf (requests (card.Client_Update c id (Some p)) s)
          = [template o (Some id)]
       /\ map pathOf (requests (card.Client_Del c id (Some p)) s)
          = [template o (Some id)]).
Proof.
  split; [| split].
  - intros p s E. apply firstSet_None in E. now apply card_no_owner_run.
  - intros lp pp b s E. apply firstSet_None in E.
    change (ownerOfList (Some lp) = None) in E. split.
    + now apply (card_List_query_no_owner c (Some lp)).
    + now apply (card_List_Next_no_owner c (Some lp)).
  - intros p s E.
    destruct (firstSet (CardParams.Account p) (CardParams.Customer p)
                (CardParams.Recipient p)) as [o |] eqn:F.
    + exists o. change (ownerOf p = Some o) in F. split; [reflexivity |].
      repeat split.
      * run_of card_New_run.
      * run_of card_Get_run.
      * run_of card_Update_run.
      * run_of card_Del_run.
    + apply firstSet_None in F. lia.
Qed.

(** C4. List returns an iterator for every input, with no error on it and no
    page fetched.  When owner resolution fails (nil parameter object, or
    none of the identifiers set), the page fetch of that iterator returns
    the validation error without a request to the backend, and the first
    advance of the iterator answers false and leaves that error on it. *)
Theorem card_List_defers_owner_failure (c : card.Client) :
  (forall lp : option CardListParams.t,
     let it := card.Iter_ (card.Client_List c lp) in
     Err it = None /\ meta it = None /\ values it = [] /\ Current it = None)
  /\ (forall (lp : option CardListParams.t) (s : BackendState),
     ownerOfList lp = None ->
     let it := card.Iter_ (card.Client_List c lp) in
     let e := errors_New
       match lp with
       | None => "params should not be nil"
       | Some _ => "Invalid card params: either account, customer or recipient need to be set"
       end in
     (forall (pp : option Params) (b : form.Values) (s0 : BackendState),
        query it pp b s0 = (([], ListMeta_zero, Some e), s0, []))
     /\ exists it' : stripe.Iter,
          Next it s = ((false, it'), s, []) /\ Err it' = Some e).
Proof.
  split.
  - intros lp it. subst it. rewrite card_List_GetIter. repeat split.
  - intros lp s E. split.
    + intros pp b s0. now apply card_List_query_no_owner.
    + now apply card_List_Next_no_owner.
Qed.

(** C8. New hands the backend the body that
    [AppendToAsCardSourceOrExternalAccount] writes into an empty
    [form.Values], through [CallRaw], with the embedded [Params]; Get,
    Update and Del hand the parameter object itself to [Call], which
    serializes it the generic way; the page fetch of List hands [CallRaw]
    the form values it got from the iterator. *)
Theorem card_New_alone_serializes_as_card_source (c : card.Client) (id : string)
    (p : CardParams.t) (lp : CardListParams.t) (o o' : Owner) (pp : option Params)
    (b : form.Values) (s : BackendState) :
  ownerOf p = Some o ->
  ownerOfList (Some lp) = Some o' ->
  requests (card.Client_New c (Some p)) s =
    [ReqCallRaw KCard "POST" (template o None) (card.Key c)
       (AppendToAsCardSourceOrExternalAccount p form.empty [])
       (Some (CardParams.Params p))]
  /\ requests (card.Client_Get c id (Some p)) s =
    [ReqCall KCard "GET" (template o (Some id)) (card.Key c) (CardParamsPtr (Some p))]
  /\ requests (card.Client_Update c id (Some p)) s =
    [ReqCall KCard "POST" (template o (Some id)) (card.Key c) (CardParamsPtr (Some p))]
  /\ requests (card.Client_Del c id (Some p)) s =
    [ReqCall KCard "DELETE" (template o (Some id)) (card.Key c) (CardParamsPtr (Some p))]
  /\ requests (query (card.Iter_ (card.Client_List c (Some lp))) pp b) s =
    [ReqCallRaw KCardList "GET" (listTemplate o') (card.Key c) b pp].
Proof.
  intros E E'. repeat split.
  - run_of card_New_run.
  - run_of card_Get_run.
  - run_of card_Update_run.
  - run_of card_Del_run.
  - run_of card_List_query_run.
Qed.

(** C9. With a stable backend, a card that New has returned without error
    is the card that Get returns, without error, for the id of that card and
    the same parameter object. *)
Theorem card_New_Get_round_trip (c : card.Client) (params : option CardParams.t)
    (s s1 : BackendState) (created : Card) :
  stable (card.B c) ->
  result (card.Client_New c params) s = (Some created, None) ->
  final (card.Client_New c params) s = s1 ->
  result (card.Client_Get c (Card_ID created) params) s1 = (Some created, None).
Proof.
  intros St R F. destruct params as [p |]; [| discriminate R].
  destruct (ownerOf p) as [o |] eqn:E.
  - unfold result, final in *. rewrite (card_New_run c p o s E) in R, F.
    cbv zeta in R, F.
    destruct (CallRaw _ _ _ _ _ _ _ _ _) as [[v e] s'] eqn:Post.
    simpl in R, F. inversion R; subst; clear R.
    rewrite (card_Get_run c (Card_ID created) p o s1 E).
    assert (G := St _ _ _ _ _ _ _ Post (card.Key c) (CardParamsPtr (Some p))).
    unfold template.
    destruct (Call _ _ _ _ _ _ _ _) as [[v e] s2]. simpl in G |- *.
    inversion G; subst. reflexivity.
  - destruct (card_no_owner_run c "" p s E) as [N _].
    unfold result in R. rewrite N in R. discriminate R.
Qed.

(** C10, amended. The page fetch of List requests
    [/accounts/{account}/external_accounts?object=card] when the account is
    set, [/customers/{customer}/sources?object=card] when the customer is
    set and the account is not, and [/recipients/{recipient}/cards], without
    a query string, when the recipient is set and neither of the other two
    is. *)
Theorem card_List_paths (c : card.Client) (lp : CardListParams.t)
    (pp : option Params) (b : form.Values) (s : BackendState) :
  let paths :=
    map pathOf (requests (query (card.Iter_ (card.Client_List c (Some lp))) pp b) s) in
  (forall account,
     CardListParams.Account lp = Some account ->
     paths = ["/accounts/" ++ escape account ++ "/external_accounts?object=card"])
  /\ (forall customer,
     CardListParams.Account lp = None ->
     CardListParams.Customer lp = Some customer ->
     paths = ["/customers/" ++ escape customer ++ "/sources?object=card"])
  /\ (forall recipient,
     CardListParams.Account lp = None ->
     CardListParams.Customer lp = None ->
     CardListParams.Recipient lp = Some recipient ->
     paths = ["/recipients/" ++ escape recipient ++ "/cards"]).
Proof.
  intros paths; subst paths. repeat split.
  - intros a Ea.
    assert (E : ownerOfList (Some lp) = Some (OfAccount a))
      by (simpl; now rewrite Ea).
    run_of card_List_query_run.
  - intros cu Ea Ec.
    assert (E : ownerOfList (Some lp) = Some (OfCustomer cu))
      by (simpl; now rewrite Ea, Ec).
    run_of card_List_query_run.
  - intros r Ea Ec Er.
    assert (E : ownerOfList (Some lp) = Some (OfRecipient r))
      by (simpl; now rewrite Ea, Ec, Er).
    run_of card_List_query_run.
Qed.

End CardProperties.

(** ** Both clients *)

Section BothClients.
Context `{Library}.

(** C6. Whenever the call an operation makes to the backend returns an
    error, the operation returns that very error, together with the record
    the backend decoded into: New, Get and Update of the bitcoin receiver
    client, and New, Get, Update and Del of the card client. *)
Theorem backend_error_returned_as_is :
  (forall (c : bitcoinreceiver.Client) (params : option BitcoinReceiverParams)
          (s s' : BackendState) (v : BitcoinReceiver) (e : error),
     Call (bitcoinreceiver.B c) KBitcoinReceiver "POST" "/bitcoin/receivers"
       (bitcoinreceiver.Key c) (BitcoinReceiverParamsPtr params)
       BitcoinReceiver_zero s = (v, Some e, s') ->
     result (bitcoinreceiver.Client_New c params) s = (Some v, Some e))
  /\ (forall (c : bitcoinreceiver.Client) (id : string)
             (params : option BitcoinReceiverParams)
             (s s' : BackendState) (v : BitcoinReceiver) (e : error),
     Call (bitcoinreceiver.B c) KBitcoinReceiver "GET"
       ("/bitcoin/receivers/" ++ escape id)
       (bitcoinreceiver.Key c) (BitcoinReceiverParamsPtr params)
       BitcoinReceiver_zero s = (v, Some e, s') ->
     result (bitcoinreceiver.Client_Get c id params) s = (Some v, Some e))
  /\ (forall (c : bitcoinreceiver.Client) (id : string)
             (params : option BitcoinReceiverUpdateParams)
             (s s' : BackendState) (v : BitcoinReceiver) (e : error),
     Call (bitcoinreceiver.B c) KBitcoinReceiver "POST"
       ("/bitcoin/receivers/" ++ escape id)
       (bitcoinreceiver.Key c) (BitcoinReceiverUpdateParamsPtr params)
       BitcoinReceiver_zero s = (v, Some e, s') ->
     result (bitcoinreceiver.Client_Update c id params) s = (Some v, Some e))
  /\ (forall (c : card.Client) (p : CardParams.t) (o : Owner)
             (s s' : BackendState) (v : Card) (e : error),
     ownerOf p = Some o ->
     CallRaw (card.B c) KCard "POST" (template o None) (card.Key c)
       (AppendToAsCardSourceOrExternalAccount p form.empty [])
       (Some (CardParams.Params p)) Card_zero s = (v, Some e, s') ->
     result (card.Client_New c (Some p)) s = (Some v, Some e))
  /\ (forall (c : card.Client) (id : string) (p : CardParams.t) (o : Owner)
             (s s' : BackendState) (v : Card) (e : error),
     ownerOf p = Some o ->
     Call (card.B c) KCard "GET" (template o (Some id)) (card.Key c)
       (CardParamsPtr (Some p)) Card_zero s = (v, Some e, s') ->
     result (card.Client_Get c id (Some p)) s = (Some v, Some e))
  /\ (forall (c : card.Client) (id : string) (p : CardParams.t) (o : Owner)
             (s s' : BackendState) (v : Card) (e : error),
     ownerOf p = Some o ->
     Call (card.B c) KCard "POST" (template o (Some id)) (card.Key c)
       (CardParamsPtr (Some p)) Card_zero s = (v, Some e, s') ->
     result (card.Client_Update c id (Some p)) s = (Some v, Some e))
  /\ (forall (c : card.Client) (id : string) (p : CardParams.t) (o : Owner)
             (s s' : BackendState) (v : Card) (e : error),
     ownerOf p = Some o ->
     Call (card.B c) KCard "DELETE" (template o (Some id)) (card.Key c)
       (CardParamsPtr (Some p)) Card_zero s = (v, Some e, s') ->
     result (card.Client_Del c id (Some p)) s = (Some v, Some e)).
Proof.
  repeat split.
  - intros c params s s' v e R. unfold result.
    rewrite receiver_New_run, R. reflexivity.
  - intros c id params s s' v e R. unfold result.
    rewrite receiver_Get_run. cbv zeta. rewrite R. reflexivity.
  - intros c id params s s' v e R. unfold result.
    rewrite receiver_Update_run. cbv zeta. rewrite R. reflexivity.
  - intros c p o s s' v e E R. unfold result.
    rewrite (card_New_run c p o s E). cbv zeta. unfold template in R.
    rewrite R. reflexivity.
  - intros c id p o s s' v e E R. unfold result.
    rewrite (card_Get_run c id p o s E), R. reflexivity.
  - intros c id p o s s' v e E R. unfold result.
    rewrite (card_Update_run c id p o s E), R. reflexivity.
  - intros c id p o s s' v e E R. unfold result.
    rewrite (card_Del_run c id p o s E), R. reflexivity.
Qed.

(** C7. The bitcoin receiver operations use fixed methods and paths,
    whatever the parameters: New is one POST to [/bitcoin/receivers], Get
    one GET to [/bitcoin/receivers/{id}], Update one POST to
    [/bitcoin/receivers/{id}], and the page fetch of List one GET to
    [/bitcoin/receivers]; each returns what the backend decoded (a receiver,
    or a page of receivers) with the backend's error. *)
Theorem receiver_fixed_requests (c : bitcoinreceiver.Client) (id : string)
    (params : option BitcoinReceiverParams)
    (uparams : option BitcoinReceiverUpdateParams)
    (lp : option BitcoinReceiverListParams) (pp : option Params) (b : form.Values)
    (s : BackendState) :
  let B := bitcoinreceiver.B c in
  let key := bitcoinreceiver.Key c in
  let member := "/bitcoin/receivers/" ++ escape id in
  bitcoinreceiver.Client_New c params s =
    (let '(v, e, s') :=
       Call B KBitcoinReceiver "POST" "/bitcoin/receivers" key
         (BitcoinReceiverParamsPtr params) BitcoinReceiver_zero s in
     ((Some v, e), s',
      [ReqCall KBitcoinReceiver "POST" "/bitcoin/receivers" key
         (BitcoinReceiverParamsPtr params)]))
  /\ bitcoinreceiver.Client_Get c id params s =
    (let '(v, e, s') :=
       Call B KBitcoinReceiver "GET" member key
         (BitcoinReceiverParamsPtr params) BitcoinReceiver_zero s in
     ((Some v, e), s',
      [ReqCall KBitcoinReceiver "GET" member key (BitcoinReceiverParamsPtr params)]))
  /\ bitcoinreceiver.Client_Update c id uparams s =
    (let '(v, e, s') :=
       Call B KBitcoinReceiver "POST" member key
         (BitcoinReceiverUpdateParamsPtr uparams) BitcoinReceiver_zero s in
     ((Some v, e), s',
      [ReqCall KBitcoinReceiver "POST" member key
         (BitcoinReceiverUpdateParamsPtr uparams)]))
  /\ query (bitcoinreceiver.Iter_ (bitcoinreceiver.Client_List c lp)) pp b s =
    (let '(page, e, s') :=
       CallRaw B KBitcoinReceiverList "GET" "/bitcoin/receivers" key b pp
         {| BitcoinReceiverList.ListMeta := ListMeta_zero;
            BitcoinReceiverList.Data := [] |} s in
     ((map ItemBitcoinReceiver (BitcoinReceiverList.Data page),
       BitcoinReceiverList.ListMeta page, e), s',
      [ReqCallRaw KBitcoinReceiverList "GET" "/bitcoin/receivers" key b pp])).
Proof.
  cbv zeta. repeat split.
  - apply receiver_New_run.
  - apply receiver_Get_run.
  - apply receiver_Update_run.
  - apply receiver_List_query_run.
Qed.

End BothClients.

(** ** Further properties of the card client *)

Section CardFurther.
Context `{Library}.

Ltac split_calls :=
  repeat match goal with
  | |- context [Call ?b ?k ?m ?p ?key ?pc ?v ?s] =>
      destruct (Call b k m p key pc v s) as [[? ?] ?]
  | |- context [CallRaw ?b ?k ?m ?p ?key ?body ?pc ?v ?s] =>
      destruct (CallRaw b k m p key body pc v s) as [[? ?] ?]
  end.

(** Rewrites every run of a card operation on [Some p], [p] with owner
    [o] by [E]. *)
Ltac owner_runs E :=
  unfold requests, result, final;
  repeat rewrite (card_New_run _ _ _ _ E);
  repeat rewrite (card_Get_run _ _ _ _ _ E);
  repeat rewrite (card_Update_run _ _ _ _ _ E);
  repeat rewrite (card_Del_run _ _ _ _ _ E);
  repeat rewrite (card_List_query_run _ _ _ _ _ _ E);
  cbv zeta; split_calls; cbn [fst snd map pathOf methodOf keyOf List.length].

(** The same for [p] without owner by [E]. *)
Ltac no_owner_runs E :=
  unfold requests, result, final;
  repeat match goal with
  | |- context [card.Client_New ?c (Some ?p) ?s] =>
      rewrite (proj1 (card_no_owner_run c "" p s E))
  | |- context [card.Client_Get ?c ?id (Some ?p) ?s] =>
      rewrite (proj1 (proj2 (card_no_owner_run c id p s E)))
  | |- context [card.Client_Update ?c ?id (Some ?p) ?s] =>
      rewrite (proj1 (proj2 (proj2 (card_no_owner_run c id p s E))))
  | |- context [card.Client_Del ?c ?id (Some ?p) ?s] =>
      rewrite (proj2 (proj2 (proj2 (card_no_owner_run c id p s E))))
  end;
  cbn [fst snd map pathOf methodOf keyOf List.length].

(** X1. Each of New, Get, Update and Del hands the backend at most one
    request, and returns a nil card exactly when it handed it none; in that
    case the backend's state is untouched and the error is one of the two
    validation errors, the first for nil parameters. *)
Theorem card_nil_card_iff_no_request (c : card.Client) (id : string)
    (params : option CardParams.t) (s : BackendState) :
  Forall
    (fun m : M (option Card * option error) =>
       List.length (requests m s) <= 1
       /\ (fst (result m s) = None <-> requests m s = [])
       /\ (requests m s = [] ->
           final m s = s
           /\ snd (result m s) =
              Some (errors_New
                match params with
                | None => "params should not be nil"
                | Some _ => "Invalid card params: either account, customer or recipient need to be set"
                end)))
    [card.Client_New c params; card.Client_Get c id params;
     card.Client_Update c id params; card.Client_Del c id params].
Proof.
  destruct params as [p |]; [destruct (ownerOf p) as [o |] eqn:E |].
  - repeat apply Forall_cons; try apply Forall_nil; owner_runs E;
      (split; [lia | split; [split |]]; intros D; discriminate D).
  - repeat apply Forall_cons; try apply Forall_nil; no_owner_runs E;
      (split; [lia | split; [split |]]; intros _; repeat split).
  - repeat apply Forall_cons; try apply Forall_nil; cbn;
      (split; [lia | split; [split |]]; intros _; repeat split).
Qed.

(** X2. Get, Update and Del ask for the same path when given the same id
    and parameter object, whichever client, backend and backend state they
    run on; Get only ever uses GET, Update POST, Del DELETE and New POST. *)
Theorem card_member_operations_share_path (c c' c'' : card.Client) (id : string)
    (params : option CardParams.t) (s s' s'' : BackendState) :
  map pathOf (requests (card.Client_Get c id params) s)
  = map pathOf (requests (card.Client_Update c' id params) s')
  /\ map pathOf (requests (card.Client_Update c' id params) s')
     = map pathOf (requests (card.Client_Del c'' id params) s'')
  /\ Forall (eq "GET") (map methodOf (requests (card.Client_Get c id params) s))
  /\ Forall (eq "POST") (map methodOf (requests (card.Client_Update c id params) s))
  /\ Forall (eq "DELETE") (map methodOf (requests (card.Client_Del c id params) s))
  /\ Forall (eq "POST") (map methodOf (requests (card.Client_New c params) s)).
Proof.
  destruct params as [p |]; [destruct (ownerOf p) as [o |] eqn:E |].
  - repeat split; owner_runs E; repeat constructor.
  - repeat split; no_owner_runs E; repeat constructor.
  - repeat split; constructor.
Qed.

(** X3. The path Get (and so Update and Del) asks for is the path New posts
    to for the same parameter object, followed by a slash and the escaped
    card id. *)
Theorem card_member_path_extends_collection (c c' : card.Client) (id : string)
    (params : option CardParams.t) (s s' : BackendState) :
  map pathOf (requests (card.Client_Get c id params) s)
  = map (fun collection => collection ++ "/" ++ escape id)
      (map pathOf (requests (card.Client_New c' params) s')).
Proof.
  destruct params as [p |]; [destruct (ownerOf p) as [o |] eqn:E |].
  - owner_runs E. reflexivity.
  - no_owner_runs E. reflexivity.
  - reflexivity.
Qed.

(** X4. For a list parameter object and a card parameter object with the
    same three identifiers, the page fetch of List asks for the path New
    posts to, followed by [?object=card] when the account or the customer
    is set, and by nothing otherwise. *)
Theorem card_List_path_from_New_path (c c' : card.Client) (p : CardParams.t)
    (lp : CardListParams.t) (pp : option Params) (b : form.Values)
    (s s' : BackendState) :
  CardListParams.Account lp = CardParams.Account p ->
  CardListParams.Customer lp = CardParams.Customer p ->
  CardListParams.Recipient lp = CardParams.Recipient p ->
  map pathOf (requests (query (card.Iter_ (card.Client_List c (Some lp))) pp b) s)
  = map (fun collection =>
           collection ++
           (if notNil (CardParams.Account p) || notNil (CardParams.Customer p)
            then "?object=card" else ""))
      (map pathOf (requests (card.Client_New c' (Some p)) s')).
Proof.
  intros Ea Ec Er.
  destruct (ownerOf p) as [o |] eqn:E.
  - assert (E' : ownerOfList (Some lp) = Some o)
      by (unfold ownerOfList; rewrite Ea, Ec, Er; exact E).
    owner_runs E. owner_runs E'.
    unfold ownerOf in E.
    destruct (firstSet_cases _ _ _ _ E)
      as [(x & Fa & ->) | [(x & Fa & Fc & ->) | (x & Fa & Fc & Fr & ->)]];
      rewrite Fa, ?Fc; simpl; rewrite ?append_assoc, ?append_nil_r; reflexivity.
  - assert (E' : ownerOfList (Some lp) = None)
      by (unfold ownerOfList; rewrite Ea, Ec, Er; exact E).
    no_owner_runs E. unfold requests.
    rewrite (card_List_query_no_owner c (Some lp) pp b s E'). reflexivity.
Qed.

(** The requests of the four operations and of the page fetch carry the
    key of the client. *)
Lemma card_client_key (c : card.Client) (id : string) (params : option CardParams.t)
    (lp : option CardListParams.t) (pp : option Params) (b : form.Values)
    (s : BackendState) :
  Forall
    (fun m : M (option Card * option error) =>
       Forall (fun r => keyOf r = card.Key c) (requests m s))
    [card.Client_New c params; card.Client_Get c id params;
     card.Client_Update c id params; card.Client_Del c id params]
  /\ Forall (fun r => keyOf r = card.Key c)
       (requests (query (card.Iter_ (card.Client_List c lp)) pp b) s).
Proof.
  split.
  - destruct params as [p |]; [destruct (ownerOf p) as [o |] eqn:E |].
    + repeat apply Forall_cons; try apply Forall_nil; owner_runs E;
        repeat constructor.
    + repeat apply Forall_cons; try apply Forall_nil; no_owner_runs E;
        constructor.
    + repeat apply Forall_cons; try apply Forall_nil; constructor.
  - destruct (ownerOfList lp) as [o |] eqn:E.
    + destruct lp as [lp |]; [| discriminate E].
      owner_runs E. repeat constructor.
    + unfold requests. rewrite (card_List_query_no_owner c lp pp b s E).
      constructor.
Qed.

(** X5. Every request of a card operation carries the key of the client
    it was called on, and every request of a package-level function the key
    in [stripe.Key]: New, Get, Update, Del and the page fetch of List. *)
Theorem card_requests_carry_the_key (id : string) (params : option CardParams.t)
    (lp : option CardListParams.t) (pp : option Params) (b : form.Values)
    (s : BackendState) :
  (forall c : card.Client,
     Forall
       (fun m : M (option Card * option error) =>
          Forall (fun r => keyOf r = card.Key c) (requests m s))
       [card.Client_New c params; card.Client_Get c id params;
        card.Client_Update c id params; card.Client_Del c id params]
     /\ Forall (fun r => keyOf r = card.Key c)
          (requests (query (card.Iter_ (card.Client_List c lp)) pp b) s))
  /\ (forall g : Globals,
     Forall
       (fun m : M (option Card * option error) =>
          Forall (fun r => keyOf r = stripe.Key g) (requests m s))
       [card.New g params; card.Get g id params;
        card.Update g id params; card.Del g id params]
     /\ Forall (fun r => keyOf r = stripe.Key g)
          (requests (query (card.Iter_ (card.List g lp)) pp b) s)).
Proof.
  split.
  - intros c. apply card_client_key.
  - intros g. exact (card_client_key (card.getC g) id params lp pp b s).
Qed.

(** X7. Parameter objects whose owners are of different kinds never lead
    to the same path, whatever the identifiers and card ids contain and
    however they are escaped. *)
Theorem card_owner_kinds_never_share_a_path (c c' : card.Client) (id id' : string)
    (p p' : CardParams.t) (o o' : Owner) (s s' : BackendState) :
  ownerOf p = Some o ->
  ownerOf p' = Some o' ->
  sameKind o o' = false ->
  map pathOf (requests (card.Client_New c (Some p)) s)
  <> map pathOf (requests (card.Client_New c' (Some p')) s')
  /\ map pathOf (requests (card.Client_Get c id (Some p)) s)
     <> map pathOf (requests (card.Client_Get c' id' (Some p')) s')
  /\ map pathOf (requests (card.Client_Update c id (Some p)) s)
     <> map pathOf (requests (card.Client_Update c' id' (Some p')) s')
  /\ map pathOf (requests (card.Client_Del c id (Some p)) s)
     <> map pathOf (requests (card.Client_Del c' id' (Some p')) s').
Proof.
  intros E E' K.
  repeat split; owner_runs E; owner_runs E';
    destruct o, o'; try discriminate K; simpl; intros D; discriminate D.
Qed.

(** X8. Every item the page fetch of List returns is a card: on an
    iterator whose current item is one of them, [Card] returns that card
    and its type assertion does not panic. *)
Theorem card_List_items_are_cards (c : card.Client) (lp : option CardListParams.t)
    (pp : option Params) (b : form.Values) (s : BackendState)
    (i : card.Iter) (item : Item) :
  In item (fst (fst (result (query (card.Iter_ (card.Client_List c lp)) pp b) s))) ->
  Current (card.Iter_ i) = Some item ->
  exists k : Card, item = ItemCard k /\ card.Iter_Card i = Some k.
Proof.
  intros I C. unfold card.Iter_Card. rewrite C.
  destruct (ownerOfList lp) as [o |] eqn:E.
  - destruct lp as [lp |]; [| discriminate E].
    unfold result in I. rewrite (card_List_query_run c lp o pp b s E) in I.
    destruct (CallRaw _ _ _ _ _ _ _ _ _) as [[page e] s1]. simpl in I.
    apply in_map_iff in I. destruct I as (k & <- & _). exists k. now split.
  - unfold result in I. rewrite (card_List_query_no_owner c lp pp b s E) in I.
    destruct I.
Qed.

End CardFurther.

(** ** Further properties of the bitcoin receiver client *)

Section ReceiverFurther.
Context `{Library}.

Lemma receiver_client_once (c : bitcoinreceiver.Client) (id : string)
    (params : option BitcoinReceiverParams)
    (uparams : option BitcoinReceiverUpdateParams) (s : BackendState) :
  Forall
    (fun m : M (option BitcoinReceiver * option error) =>
       List.length (requests m s) = 1
       /\ fst (result m s) <> None
       /\ Forall (fun r => keyOf r = bitcoinreceiver.Key c) (requests m s))
    [bitcoinreceiver.Client_New c params; bitcoinreceiver.Client_Get c id params;
     bitcoinreceiver.Client_Update c id uparams].
Proof.
  repeat apply Forall_cons; try apply Forall_nil; unfold requests, result;
    rewrite ?receiver_New_run, ?receiver_Get_run, ?receiver_Update_run; cbv zeta;
    destruct (Call _ _ _ _ _ _ _ _) as [[v e] s1]; simpl;
    (split; [reflexivity | split; [discriminate | repeat constructor]]).
Qed.

(** X9. New, Get and Update of the bitcoin receiver client hand the
    backend exactly one request for every input, nil parameters included,
    and never return a nil receiver; the request carries the key of the
    client, and for the package-level functions the key in [stripe.Key]. *)
Theorem receiver_always_one_request (id : string)
    (params : option BitcoinReceiverParams)
    (uparams : option BitcoinReceiverUpdateParams) (s : BackendState) :
  (forall c : bitcoinreceiver.Client,
     Forall
       (fun m : M (option BitcoinReceiver * option error) =>
          List.length (requests m s) = 1
          /\ fst (result m s) <> None
          /\ Forall (fun r => keyOf r = bitcoinreceiver.Key c) (requests m s))
       [bitcoinreceiver.Client_New c params; bitcoinreceiver.Client_Get c id params;
        bitcoinreceiver.Client_Update c id uparams])
  /\ (forall g : Globals,
     Forall
       (fun m : M (option BitcoinReceiver * option error) =>
          List.length (requests m s) = 1
          /\ fst (result m s) <> None
          /\ Forall (fun r => keyOf r = stripe.Key g) (requests m s))
       [bitcoinreceiver.New g params; bitcoinreceiver.Get g id params;
        bitcoinreceiver.Update g id uparams]).
Proof.
  split.
  - intros c. apply receiver_client_once.
  - intros g. exact (receiver_client_once (bitcoinreceiver.getC g) id params uparams s).
Qed.

(** X10. Get and Update of the bitcoin receiver client ask for the same
    path, which is the path New posts to followed by a slash and the
    escaped id; the page fetch of List asks for the path of New. *)
Theorem receiver_paths_agree (c c' c'' c3 : bitcoinreceiver.Client) (id : string)
    (params params' : option BitcoinReceiverParams)
    (uparams : option BitcoinReceiverUpdateParams)
    (lp : option BitcoinReceiverListParams) (pp : option Params) (b : form.Values)
    (s s' s'' s3 : BackendState) :
  map pathOf (requests (bitcoinreceiver.Client_Get c id params) s)
  = map (fun collection => collection ++ "/" ++ escape id)
      (map pathOf (requests (bitcoinreceiver.Client_New c' params') s'))
  /\ map pathOf (requests (bitcoinreceiver.Client_Update c'' id uparams) s'')
     = map pathOf (requests (bitcoinreceiver.Client_Get c id params) s)
  /\ map pathOf
       (requests (query (bitcoinreceiver.Iter_ (bitcoinreceiver.Client_List c3 lp)) pp b)
          s3)
     = map pathOf (requests (bitcoinreceiver.Client_New c' params') s').
Proof.
  unfold requests.
  rewrite receiver_New_run, receiver_Get_run, receiver_Update_run,
    receiver_List_query_run. cbv zeta.
  repeat match goal with
  | |- context [Call ?b ?k ?m ?p ?key ?pc ?v ?s] =>
      destruct (Call b k m p key pc v s) as [[? ?] ?]
  | |- context [CallRaw ?b ?k ?m ?p ?key ?body ?pc ?v ?s] =>
      destruct (CallRaw b k m p key body pc v s) as [[? ?] ?]
  end.
  repeat split.
Qed.

(** X11. Every item the page fetch of the receiver List returns is a
    receiver: on an iterator whose current item is one of them,
    [BitcoinReceiver] returns it and its type assertion does not panic. *)
Theorem receiver_List_items_are_receivers (c : bitcoinreceiver.Client)
    (lp : option BitcoinReceiverListParams) (pp : option Params) (b : form.Values)
    (s : BackendState) (i : bitcoinreceiver.Iter) (item : Item) :
  In item
    (fst (fst (result
       (query (bitcoinreceiver.Iter_ (bitcoinreceiver.Client_List c lp)) pp b) s))) ->
  Current (bitcoinreceiver.Iter_ i) = Some item ->
  exists r : BitcoinReceiver,
    item = ItemBitcoinReceiver r /\ bitcoinreceiver.Iter_BitcoinReceiver i = Some r.
Proof.
  intros I C. unfold bitcoinreceiver.Iter_BitcoinReceiver. rewrite C.
  unfold result in I. rewrite receiver_List_query_run in I.
  destruct (CallRaw _ _ _ _ _ _ _ _ _) as [[page e] s1]. simpl in I.
  apply in_map_iff in I. destruct I as (r & <- & _). exists r. now split.
Qed.

(** X6. What an operation hands to the backend is decided by its arguments
    and the key of the client alone: two clients with the same key hand
    over the same requests, whatever their backends and the states of
    those. *)
Theorem requests_independent_of_backend (c c' : card.Client)
    (r r' : bitcoinreceiver.Client) (id : string)
    (params : option CardParams.t) (lp : option CardListParams.t)
    (rparams : option BitcoinReceiverParams)
    (uparams : option BitcoinReceiverUpdateParams)
    (rlp : option BitcoinReceiverListParams)
    (pp : option Params) (b : form.Values) (s s' : BackendState) :
  card.Key c = card.Key c' ->
  bitcoinreceiver.Key r = bitcoinreceiver.Key r' ->
  (requests (card.Client_New c params) s = requests (card.Client_New c' params) s'
   /\ requests (card.Client_Get c id params) s
      = requests (card.Client_Get c' id params) s'
   /\ requests (card.Client_Update c id params) s
      = requests (card.Client_Update c' id params) s'
   /\ requests (card.Client_Del c id params) s
      = requests (card.Client_Del c' id params) s'
   /\ requests (query (card.Iter_ (card.Client_List c lp)) pp b) s
      = requests (query (card.Iter_ (card.Client_List c' lp)) pp b) s')
  /\ (requests (bitcoinreceiver.Client_New r rparams) s
      = requests (bitcoinreceiver.Client_New r' rparams) s'
      /\ requests (bitcoinreceiver.Client_Get r id rparams) s
         = requests (bitcoinreceiver.Client_Get r' id rparams) s'
      /\ requests (bitcoinreceiver.Client_Update r id uparams) s
         = requests (bitcoinreceiver.Client_Update r' id uparams) s'
      /\ requests
           (query (bitcoinreceiver.Iter_ (bitcoinreceiver.Client_List r rlp)) pp b) s
         = requests
             (query (bitcoinreceiver.Iter_ (bitcoinreceiver.Client_List r' rlp)) pp b)
             s').
Proof.
  intros K K'. split.
  - assert (L : requests (query (card.Iter_ (card.Client_List c lp)) pp b) s
                = requests (query (card.Iter_ (card.Client_List c' lp)) pp b) s').
    { destruct (ownerOfList lp) as [o |] eqn:E.
      - destruct lp as [lp |]; [| discriminate E].
        unfold requests. rewrite !(card_List_query_run _ _ _ _ _ _ E). cbv zeta.
        do 2 destruct (CallRaw _ _ _ _ _ _ _ _ _) as [[? ?] ?].
        simpl. now rewrite K.
      - unfold requests. now rewrite !(card_List_query_no_owner _ _ _ _ _ E). }
    destruct params as [p |]; [destruct (ownerOf p) as [o |] eqn:E |].
    + repeat split; try exact L; unfold requests;
        rewrite ?(card_New_run _ _ _ _ E), ?(card_Get_run _ _ _ _ _ E),
          ?(card_Update_run _ _ _ _ _ E), ?(card_Del_run _ _ _ _ _ E); cbv zeta;
        repeat match goal with
        | |- context [Call ?b ?k ?m ?p ?key ?pc ?v ?s] =>
            destruct (Call b k m p key pc v s) as [[? ?] ?]
        | |- context [CallRaw ?b ?k ?m ?p ?key ?body ?pc ?v ?s] =>
            destruct (CallRaw b k m p key body pc v s) as [[? ?] ?]
        end; simpl; now rewrite K.
    + destruct (card_no_owner_run c id p s E) as (N1 & G1 & U1 & D1).
      destruct (card_no_owner_run c' id p s' E) as (N2 & G2 & U2 & D2).
      unfold requests. rewrite N1, N2, G1, G2, U1, U2, D1, D2.
      repeat split; exact L.
    + repeat split; exact L.
  - unfold requests.
    rewrite !receiver_New_run, !receiver_Get_run, !receiver_Update_run,
      !receiver_List_query_run. cbv zeta.
    repeat match goal with
    | |- context [Call ?b ?k ?m ?p ?key ?pc ?v ?s] =>
        destruct (Call b k m p key pc v s) as [[? ?] ?]
    | |- context [CallRaw ?b ?k ?m ?p ?key ?body ?pc ?v ?s] =>
        destruct (CallRaw b k m p key body pc v s) as [[? ?] ?]
    end.
    simpl. rewrite K'. repeat split.
Qed.

(** X12. The page fetch of a List returns what the backend decoded: the
    records of the page as items, in order, the page's metadata, and the
    backend's error as it is, even when there is one. *)
Theorem list_page_fetch_returns_backend_page :
  (forall (c : card.Client) (lp : CardListParams.t) (o : Owner)
          (pp : option Params) (b : form.Values) (s s1 : BackendState)
          (page : CardList.t) (e : option error),
     ownerOfList (Some lp) = Some o ->
     CallRaw (card.B c) KCardList "GET" (listTemplate o) (card.Key c) b pp
       {| CardList.ListMeta := ListMeta_zero; CardList.Data := [] |} s
     = (page, e, s1) ->
     result (query (card.Iter_ (card.Client_List c (Some lp))) pp b) s
     = (map ItemCard (CardList.Data page), CardList.ListMeta page, e)
     /\ final (query (card.Iter_ (card.Client_List c (Some lp))) pp b) s = s1)
  /\ (forall (c : bitcoinreceiver.Client) (lp : option BitcoinReceiverListParams)
             (pp : option Params) (b : form.Values) (s s1 : BackendState)
             (page : BitcoinReceiverList.t) (e : option error),
     CallRaw (bitcoinreceiver.B c) KBitcoinReceiverList "GET" "/bitcoin/receivers"
       (bitcoinreceiver.Key c) b pp
       {| BitcoinReceiverList.ListMeta := ListMeta_zero;
          BitcoinReceiverList.Data := [] |} s
     = (page, e, s1) ->
     result (query (bitcoinreceiver.Iter_ (bitcoinreceiver.Client_List c lp)) pp b) s
     = (map ItemBitcoinReceiver (BitcoinReceiverList.Data page),
        BitcoinReceiverList.ListMeta page, e)
     /\ final (query (bitcoinreceiver.Iter_ (bitcoinreceiver.Client_List c lp)) pp b) s
        = s1).
Proof.
  split.
  - intros c lp o pp b s s1 page e E R. unfold result, final.
    rewrite (card_List_query_run c lp o pp b s E), R. now split.
  - intros c lp pp b s s1 page e R. unfold result, final.
    rewrite receiver_List_query_run, R. now split.
Qed.

End ReceiverFurther.


(** ** Runs on the concrete services *)

Import demo.

(** The service [store] is stable: the card it creates under a collection
    is the card it serves under that collection. *)
Lemma store_stable : stable store.
Proof.
  intros path key body params s s' created E key' pc.
  cbn in E. inversion E; subst; clear E.
  cbn. now rewrite String.eqb_refl.
Qed.

(** The example of the specification: parameters [{customer: "cus_123"}],
    [Get("card_abc")]. *)
Lemma card_path_exactly_one_parent_witness :
  onlySet None (Some "cus_123") None = Some (OfCustomer "cus_123")
  /\ map pathOf
       (requests (card.Client_Get (cardClient store) "card_abc"
                    (Some (cardParams None (Some "cus_123") None))) [])
     = ["/customers/cus_123/sources/card_abc"].
Proof.
  split; [reflexivity |].
  exact (proj1 (proj2 (card_path_exactly_one_parent (cardClient store) "card_abc"
                         (cardParams None (Some "cus_123") None)
                         (OfCustomer "cus_123") [] eq_refl))).
Defined.

(** An identifier with a space and a slash goes into the path escaped. *)
Example card_Get_escapes_identifier :
  map pathOf
    (requests (card.Client_Get (cardClient store) "card_abc"
                 (Some (cardParams None (Some "cus 1/2") None))) [])
  = ["/customers/cus%201%2F2/sources/card_abc"].
Proof. reflexivity. Qed.

(** With all three identifiers set the account wins; with customer and
    recipient set the customer wins. *)
Lemma card_owner_precedence_witness :
  firstSet (Some "acct_1") (Some "cus_1") (Some "rp_1") = Some (OfAccount "acct_1")
  /\ firstSet None (Some "cus_1") (Some "rp_1") = Some (OfCustomer "cus_1")
  /\ map pathOf
       (requests (card.Client_Del (cardClient store) "card_1"
                    (Some (cardParams (Some "acct_1") (Some "cus_1") (Some "rp_1")))) [])
     = ["/accounts/acct_1/external_accounts/card_1"]
  /\ map pathOf
       (requests (query (card.Iter_ (card.Client_List (cardClient store)
                    (Some (cardListParams None (Some "cus_1") (Some "rp_1")))))
                    None form.empty) [])
     = ["/customers/cus_1/sources?object=card"].
Proof.
  split; [reflexivity |]. split; [reflexivity |].
  pose proof (card_owner_precedence (cardClient store) "card_1"
                (cardParams (Some "acct_1") (Some "cus_1") (Some "rp_1"))
                (cardListParams None (Some "cus_1") (Some "rp_1"))
                (OfAccount "acct_1") (OfCustomer "cus_1") None form.empty []
                eq_refl eq_refl) as (_ & _ & _ & D & L).
  split; [exact D | exact L].
Defined.

(** C2 as stated fails: with account and customer both set, New returns the
    card the backend created and no error, after one request to the
    account's collection. *)
Lemma card_New_two_parents_reaches_backend :
  countSet (Some "acct_1") (Some "cus_1") None = 2
  /\ result (card.Client_New (cardClient store)
               (Some (cardParams (Some "acct_1") (Some "cus_1") None))) []
     = (Some "card_1", None)
  /\ requests (card.Client_New (cardClient store)
                 (Some (cardParams (Some "acct_1") (Some "cus_1") None))) []
     = [ReqCallRaw KCard "POST" "/accounts/acct_1/external_accounts" "sk_test"
          [("source[number]", "4242424242424242")] (Some tt)].
Proof. repeat split. Qed.

(** The example of the specification: parameters [{}], [New]. *)
Lemma card_no_parent_rejected_witness :
  countSet None None None = 0
  /\ card.Client_New (cardClient store) (Some (cardParams None None None)) []
     = ((None,
         Some "Invalid card params: either account, customer or recipient need to be set"),
        [], [])
  /\ 2 <= countSet (Some "acct_1") (Some "cus_1") None
  /\ exists o : Owner,
       firstSet (Some "acct_1") (Some "cus_1") None = Some o
       /\ map pathOf
            (requests (card.Client_New (cardClient store)
                         (Some (cardParams (Some "acct_1") (Some "cus_1") None))) [])
          = [template o None].
Proof.
  destruct (card_no_parent_rejected (cardClient store) "card_1") as (Z & _ & T).
  split; [reflexivity |].
  split; [exact (proj1 (Z (cardParams None None None) [] eq_refl)) |].
  assert (Two : 2 <= countSet (Some "acct_1") (Some "cus_1") None)
    by (unfold countSet; simpl; lia).
  split; [exact Two |].
  destruct (T (cardParams (Some "acct_1") (Some "cus_1") None) [] Two)
    as (o & F & N & _).
  exists o. split; [exact F | exact N].
Defined.

(** A nil list parameter object: the iterator is built, its first advance
    answers false with the error on it, and the backend got no request. *)
Lemma card_List_defers_owner_failure_witness :
  ownerOfList None = None
  /\ exists it' : stripe.Iter,
       Next (card.Iter_ (card.Client_List (cardClient store) None)) []
       = ((false, it'), [], [])
       /\ Err it' = Some "params should not be nil".
Proof.
  split; [reflexivity |].
  exact (proj2 (proj2 (card_List_defers_owner_failure (cardClient store))
                  None [] eq_refl)).
Defined.

(** The service that is down, asked for a new receiver; the store, asked for
    a card it does not have. *)
Lemma backend_error_returned_as_is_witness :
  result (bitcoinreceiver.Client_New (receiverClient down) None) []
  = (Some "", Some "api_connection_error")
  /\ result (card.Client_Get (cardClient store) "card_9"
               (Some (cardParams None (Some "cus_123") None))) []
     = (Some "", Some "resource_missing").
Proof.
  destruct backend_error_returned_as_is as (N & _ & _ & _ & G & _).
  split.
  - exact (N (receiverClient down) None [] [] "" "api_connection_error" eq_refl).
  - exact (G (cardClient store) "card_9" (cardParams None (Some "cus_123") None)
             (OfCustomer "cus_123") [] [] "" "resource_missing" eq_refl eq_refl).
Defined.

Lemma card_New_alone_serializes_as_card_source_witness :
  ownerOf (cardParams None None (Some "rp_1")) = Some (OfRecipient "rp_1")
  /\ ownerOfList (Some (cardListParams None None (Some "rp_1")))
     = Some (OfRecipient "rp_1")
  /\ requests (card.Client_New (cardClient store)
                 (Some (cardParams None None (Some "rp_1")))) []
     = [ReqCallRaw KCard "POST" "/recipients/rp_1/cards" "sk_test"
          [("source[number]", "4242424242424242")] (Some tt)]
  /\ requests (card.Client_Update (cardClient store) "card_1"
                 (Some (cardParams None None (Some "rp_1")))) []
     = [ReqCall KCard "POST" "/recipients/rp_1/cards/card_1" "sk_test"
          (CardParamsPtr (Some (cardParams None None (Some "rp_1"))))].
Proof.
  split; [reflexivity |]. split; [reflexivity |].
  pose proof (card_New_alone_serializes_as_card_source (cardClient store) "card_1"
                (cardParams None None (Some "rp_1"))
                (cardListParams None None (Some "rp_1"))
                (OfRecipient "rp_1") (OfRecipient "rp_1") None form.empty []
                eq_refl eq_refl) as (N & _ & U & _).
  split; [exact N | exact U].
Defined.

(** Create a card for a customer on the store, then fetch it. *)
Lemma card_New_Get_round_trip_witness :
  stable (card.B (cardClient store))
  /\ result (card.Client_New (cardClient store)
               (Some (cardParams None (Some "cus_123") None))) []
     = (Some "card_1", None)
  /\ final (card.Client_New (cardClient store)
              (Some (cardParams None (Some "cus_123") None))) []
     = [("/customers/cus_123/sources/card_1", "card_1")]
  /\ result (card.Client_Get (cardClient store) "card_1"
               (Some (cardParams None (Some "cus_123") None)))
       [("/customers/cus_123/sources/card_1", "card_1")]
     = (Some "card_1", None).
Proof.
  split; [exact store_stable |]. split; [reflexivity |]. split; [reflexivity |].
  exact (card_New_Get_round_trip (cardClient store)
           (Some (cardParams None (Some "cus_123") None))
           [] [("/customers/cus_123/sources/card_1", "card_1")] "card_1"
           store_stable eq_refl eq_refl).
Defined.

(** C10 as stated fails: with account and customer both set, the page fetch
    of List requests the account's path, not the customer's. *)
Lemma card_List_customer_with_account_requests_account :
  CardListParams.Customer (cardListParams (Some "acct_1") (Some "cus_1") None)
  = Some "cus_1"
  /\ map pathOf
       (requests (query (card.Iter_ (card.Client_List (cardClient store)
                    (Some (cardListParams (Some "acct_1") (Some "cus_1") None))))
                    None form.empty) [])
     = ["/accounts/acct_1/external_accounts?object=card"]
  /\ map pathOf
       (requests (query (card.Iter_ (card.Client_List (cardClient store)
                    (Some (cardListParams (Some "acct_1") (Some "cus_1") None))))
                    None form.empty) [])
     <> ["/customers/cus_1/sources?object=card"].
Proof.
  split; [reflexivity |]. split; [reflexivity |].
  intros E. discriminate E.
Qed.

Lemma card_List_paths_witness :
  CardListParams.Account (cardListParams None (Some "cus_1") None) = None
  /\ CardListParams.Customer (cardListParams None (Some "cus_1") None) = Some "cus_1"
  /\ map pathOf
       (requests (query (card.Iter_ (card.Client_List (cardClient store)
                    (Some (cardListParams None (Some "cus_1") None))))
                    None form.empty) [])
     = ["/customers/cus_1/sources?object=card"].
Proof.
  split; [reflexivity |]. split; [reflexivity |].
  exact (proj1 (proj2 (card_List_paths (cardClient store)
                         (cardListParams None (Some "cus_1") None) None form.empty []))
           "cus_1" eq_refl eq_refl).
Defined.

(** ** Runs of the further properties *)

Lemma card_List_path_from_New_path_witness :
  CardListParams.Account (cardListParams None (Some "cus_1") None)
  = CardParams.Account (cardParams None (Some "cus_1") None)
  /\ map pathOf
       (requests (query (card.Iter_ (card.Client_List (cardClient catalog)
                    (Some (cardListParams None (Some "cus_1") None))))
                    None form.empty) [])
     = ["/customers/cus_1/sources?object=card"]
  /\ map pathOf
       (requests (card.Client_New (cardClient store)
                    (Some (cardParams None (Some "cus_1") None))) [])
     = ["/customers/cus_1/sources"].
Proof.
  split; [reflexivity |]. split; [| reflexivity].
  exact (card_List_path_from_New_path (cardClient catalog) (cardClient store)
           (cardParams None (Some "cus_1") None)
           (cardListParams None (Some "cus_1") None) None form.empty [] []
           eq_refl eq_refl eq_refl).
Defined.

(** The same call on the store and on the service that is down. *)
Lemma requests_independent_of_backend_witness :
  card.Key (cardClient store) = card.Key (cardClient down)
  /\ bitcoinreceiver.Key (receiverClient store) = bitcoinreceiver.Key (receiverClient down)
  /\ requests (card.Client_Del (cardClient store) "card_1"
                 (Some (cardParams (Some "acct_1") None None))) []
     = requests (card.Client_Del (cardClient down) "card_1"
                   (Some (cardParams (Some "acct_1") None None)))
         [("/accounts/acct_1/external_accounts/card_1", "card_1")].
Proof.
  split; [reflexivity |]. split; [reflexivity |].
  pose proof (requests_independent_of_backend (cardClient store) (cardClient down)
                (receiverClient store) (receiverClient down) "card_1"
                (Some (cardParams (Some "acct_1") None None)) None None None None
                None form.empty []
                [("/accounts/acct_1/external_accounts/card_1", "card_1")]
                eq_refl eq_refl) as ((_ & _ & _ & D & _) & _).
  exact D.
Defined.

(** A customer whose identifier spells an account path still gets a
    customer path. *)
Lemma card_owner_kinds_never_share_a_path_witness :
  ownerOf (cardParams (Some "acct_1") None None) = Some (OfAccount "acct_1")
  /\ ownerOf (cardParams None (Some "../accounts/acct_1") None)
     = Some (OfCustomer "../accounts/acct_1")
  /\ sameKind (OfAccount "acct_1") (OfCustomer "../accounts/acct_1") = false
  /\ map pathOf
       (requests (card.Client_Get (cardClient store) "card_1"
                    (Some (cardParams (Some "acct_1") None None))) [])
     <> map pathOf
          (requests (card.Client_Get (cardClient store) "card_1"
                       (Some (cardParams None (Some "../accounts/acct_1") None))) []).
Proof.
  split; [reflexivity |]. split; [reflexivity |]. split; [reflexivity |].
  exact (proj1 (proj2 (card_owner_kinds_never_share_a_path
                         (cardClient store) (cardClient store) "card_1" "card_1"
                         (cardParams (Some "acct_1") None None)
                         (cardParams None (Some "../accounts/acct_1") None)
                         (OfAccount "acct_1") (OfCustomer "../accounts/acct_1") [] []
                         eq_refl eq_refl eq_refl))).
Defined.

(** An iterator standing on the second card of the catalog's page. *)
Lemma card_List_items_are_cards_witness :
  In (ItemCard "card_2")
    (fst (fst (result
       (query (card.Iter_ (card.Client_List (cardClient catalog)
                 (Some (cardListParams None (Some "cus_1") None))))
          None form.empty) [])))
  /\ exists k : Card,
       ItemCard "card_2" = ItemCard k
       /\ card.Iter_Card
            {| card.Iter_ :=
                 {| container := CardListParamsPtr None;
                    query := fun _ _ => ret ([], false, None);
                    cur := Some (ItemCard "card_2"); values := [];
                    meta := Some false; err := None |} |}
          = Some k.
Proof.
  assert (I : In (ItemCard "card_2")
                (fst (fst (result
                   (query (card.Iter_ (card.Client_List (cardClient catalog)
                             (Some (cardListParams None (Some "cus_1") None))))
                      None form.empty) []))))
    by (right; left; reflexivity).
  split; [exact I |].
  exact (card_List_items_are_cards (cardClient catalog)
           (Some (cardListParams None (Some "cus_1") None)) None form.empty []
           {| card.Iter_ :=
                {| container := CardListParamsPtr None;
                   query := fun _ _ => ret ([], false, None);
                   cur := Some (ItemCard "card_2"); values := [];
                   meta := Some false; err := None |} |}
           (ItemCard "card_2") I eq_refl).
Defined.

Lemma receiver_List_items_are_receivers_witness :
  In (ItemBitcoinReceiver "btcrcv_1")
    (fst (fst (result
       (query (bitcoinreceiver.Iter_
                 (bitcoinreceiver.Client_List (receiverClient catalog) None))
          None form.empty) [])))
  /\ exists r : BitcoinReceiver,
       ItemBitcoinReceiver "btcrcv_1" = ItemBitcoinReceiver r
       /\ bitcoinreceiver.Iter_BitcoinReceiver
            {| bitcoinreceiver.Iter_ :=
                 {| container := BitcoinReceiverListParamsPtr None;
                    query := fun _ _ => ret ([], false, None);
                    cur := Some (ItemBitcoinReceiver "btcrcv_1"); values := [];
                    meta := Some false; err := None |} |}
          = Some r.
Proof.
  assert (I : In (ItemBitcoinReceiver "btcrcv_1")
                (fst (fst (result
                   (query (bitcoinreceiver.Iter_
                             (bitcoinreceiver.Client_List (receiverClient catalog) None))
                      None form.empty) []))))
    by (left; reflexivity).
  split; [exact I |].
  exact (receiver_List_items_are_receivers (receiverClient catalog) None None
           form.empty []
           {| bitcoinreceiver.Iter_ :=
                {| container := BitcoinReceiverListParamsPtr None;
                   query := fun _ _ => ret ([], false, None);
                   cur := Some (ItemBitcoinReceiver "btcrcv_1"); values := [];
                   meta := Some false; err := None |} |}
           (ItemBitcoinReceiver "btcrcv_1") I eq_refl).
Defined.

(** The catalog answers with a page and an error at once: both come back. *)
Lemma list_page_fetch_returns_backend_page_witness :
  ownerOfList (Some (cardListParams None (Some "cus_1") None))
  = Some (OfCustomer "cus_1")
  /\ result (query (card.Iter_ (card.Client_List (cardClient catalog)
                (Some (cardListParams None (Some "cus_1") None))))
               None form.empty) []
     = ([ItemCard "card_1"; ItemCard "card_2"], true, Some "rate_limit").
Proof.
  split; [reflexivity |].
  exact (proj1 (proj1 list_page_fetch_returns_backend_page
                  (cardClient catalog) (cardListParams None (Some "cus_1") None)
                  (OfCustomer "cus_1") None form.empty [] []
                  {| CardList.ListMeta := true; CardList.Data := ["card_1"; "card_2"] |}
                  (Some "rate_limit") eq_refl eq_refl)).
Defined.
